(** * pyChatGPT: the browser-driving chat client, embedded and verified

    A shallow embedding of [src/pyChatGPT/pyChatGPT.py].  The client drives a
    real browser through Selenium; here the browser is an oracle that answers
    every observation the code makes, the client's own state (object
    attributes, open tabs, clock, command trace) is threaded explicitly
    through a state-and-exception monad, and unbounded loops take a step
    budget.

    Conventions.  The browser answers the [n]-th observation the client
    makes (a [find_elements], a wait, a read of the page source, the
    performance log, the cookies or the URL, a script run) with the page
    [browser n]; what the client tells the browser to do is recorded in the
    trace and does not, by itself, determine later pages.  A
    [WebDriverWait] is one observation: the page it sees tells whether the
    awaited condition comes about within the bound.  The clock counts the
    time slept. *)

From Stdlib Require Import ZArith Ascii String.
From stdpp Require Import base strings gmap list pretty.

Open Scope Z_scope.

(** ** Python built-ins on [str] *)

Module Py.

(** [s[n:]] *)
Fixpoint slice_from (n : nat) (s : string) : string :=
  match n, s with
  | O, _ => s
  | S _, EmptyString => EmptyString
  | S n', String _ s' => slice_from n' s'
  end.

(** [s.startswith(p)] *)
Definition startswith (s p : string) : bool := String.prefix p s.

(** [sub in s] *)
Fixpoint contains (sub s : string) : bool :=
  String.prefix sub s ||
  match s with
  | EmptyString => false
  | String _ s' => contains sub s'
  end.

(** [s.replace(old, new)]: occurrences are replaced left to right and do
    not overlap; an empty [old] matches before every character and at the
    end. *)
Fixpoint replace_go (old new : string) (skip : nat) (s : string) : string :=
  match s with
  | EmptyString => EmptyString
  | String c s' =>
      match skip with
      | S k => replace_go old new k s'
      | O =>
          if String.prefix old s
          then new +:+ replace_go old new (Nat.pred (String.length old)) s'
          else String c (replace_go old new O s')
      end
  end.

Fixpoint intersperse (new s : string) : string :=
  match s with
  | EmptyString => new
  | String c s' => new +:+ String c (intersperse new s')
  end.

Definition replace (s old new : string) : string :=
  match old with
  | EmptyString => intersperse new s
  | _ => replace_go old new O s
  end.

(** [s.split(sep)] for a one-character separator; the result is never
    empty. [cur] holds the current field, last character first. *)
Fixpoint split_go (sep : ascii) (cur : string) (s : string) : list string :=
  match s with
  | EmptyString => [String.rev cur]
  | String c s' =>
      if Ascii.eqb c sep
      then String.rev cur :: split_go sep EmptyString s'
      else split_go sep (String c cur) s'
  end.

Definition split (s : string) (sep : ascii) : list string :=
  split_go sep EmptyString s.

(** [str(x)] for an attribute that may be [None] *)
Definition str_opt (x : option string) : string :=
  match x with
  | Some s => s
  | None => "None"
  end.

(** truth value of a [str | None] *)
Definition truthy (x : option string) : bool :=
  match x with
  | Some (String _ _) => true
  | _ => false
  end.

Definition truthy_str (s : string) : bool :=
  match s with
  | String _ _ => true
  | EmptyString => false
  end.

(** [x == "lit"] for a [str | None] *)
Definition eq_lit (x : option string) (lit : string) : bool :=
  match x with
  | Some s => String.eqb s lit
  | None => false
  end.

End Py.

(** ** Regular expressions (the fragment of [re] the client uses)

    Matching is by derivatives.  [search] tells whether the pattern matches
    somewhere in the subject, which is when [re.findall] is non-empty and
    when [re.search] is not [None]; [span] gives the leftmost match, taking
    the longest match at that position. *)

Module Re.

Inductive regex :=
| Void
| Eps
| Chr (p : ascii → bool)
| Cat (r1 r2 : regex)
| Alt (r1 r2 : regex)
| Star (r : regex).

Fixpoint nullable (r : regex) : bool :=
  match r with
  | Void => false
  | Eps => true
  | Chr _ => false
  | Cat r1 r2 => nullable r1 && nullable r2
  | Alt r1 r2 => nullable r1 || nullable r2
  | Star _ => true
  end.

Fixpoint deriv (c : ascii) (r : regex) : regex :=
  match r with
  | Void => Void
  | Eps => Void
  | Chr p => if p c then Eps else Void
  | Cat r1 r2 =>
      if nullable r1
      then Alt (Cat (deriv c r1) r2) (deriv c r2)
      else Cat (deriv c r1) r2
  | Alt r1 r2 => Alt (deriv c r1) (deriv c r2)
  | Star r1 => Cat (deriv c r1) (Star r1)
  end.

(** [re.fullmatch] *)
Fixpoint fullmatch (r : regex) (s : string) : bool :=
  match s with
  | EmptyString => nullable r
  | String c s' => fullmatch (deriv c r) s'
  end.

(** does some prefix of [s] match? ([re.match] is not [None]) *)
Fixpoint match_prefix (r : regex) (s : string) : bool :=
  nullable r ||
  match s with
  | EmptyString => false
  | String c s' => match_prefix (deriv c r) s'
  end.

(** does the pattern match anywhere in [s]? *)
Fixpoint search (r : regex) (s : string) : bool :=
  match_prefix r s ||
  match s with
  | EmptyString => false
  | String _ s' => search r s'
  end.

(** length of the longest matching prefix of [s] *)
Fixpoint longest_prefix (r : regex) (s : string) : option nat :=
  match s with
  | EmptyString => if nullable r then Some O else None
  | String c s' =>
      match longest_prefix (deriv c r) s' with
      | Some n => Some (S n)
      | None => if nullable r then Some O else None
      end
  end.

(** leftmost match as [(start, end)] *)
Fixpoint span_from (r : regex) (i : nat) (s : string) : option (nat * nat) :=
  match longest_prefix r s with
  | Some n => Some (i, (i + n)%nat)
  | None =>
      match s with
      | EmptyString => None
      | String _ s' => span_from r (S i) s'
      end
  end.

Definition span (r : regex) (s : string) : option (nat * nat) :=
  span_from r O s.

(** pattern syntax *)
Definition chr (c : ascii) : regex := Chr (Ascii.eqb c).

Fixpoint lit (s : string) : regex :=
  match s with
  | EmptyString => Eps
  | String c s' => Cat (chr c) (lit s')
  end.

Definition opt (r : regex) : regex := Alt r Eps.
Definition plus (r : regex) : regex := Cat r (Star r).

(** [r{n}] and [r{m,n}] with [n = m + extra] *)
Fixpoint times (n : nat) (r : regex) : regex :=
  match n with
  | O => Eps
  | S n' => Cat r (times n' r)
  end.

Fixpoint upto (n : nat) (r : regex) : regex :=
  match n with
  | O => Eps
  | S n' => opt (Cat r (upto n' r))
  end.

Definition between (m extra : nat) (r : regex) : regex :=
  Cat (times m r) (upto extra r).

(** [.]: any character but a newline *)
Definition dot : regex := Chr (λ c, negb (Ascii.eqb c "010")).

Definition in_range (lo hi c : ascii) : bool :=
  (N.leb (N_of_ascii lo) (N_of_ascii c)) && (N.leb (N_of_ascii c) (N_of_ascii hi)).

(** [\d], on byte strings *)
Definition digit : regex := Chr (in_range "0" "9").

(** [[0-9a-f]] *)
Definition hex : regex := Chr (λ c, in_range "0" "9" c || in_range "a" "f" c).

End Re.

(** ** Selenium, as the client sees it *)

Inductive By := ID | TAG_NAME | CLASS_NAME | XPATH | LINK_TEXT | CSS_SELECTOR.

Global Instance By_eq_dec : EqDecision By.
Proof. solve_decision. Defined.

Definition locator : Type := By * string.

(** An element as found: its [class] attribute (absent: [None]), its rendered
    text, its inner HTML, and whether it is displayed and enabled. *)
Record WebElement := {
  we_class : option string;
  we_text : string;
  we_innerHTML : string;
  we_clickable : bool
}.

Inductive exn :=
| ValueError (msg : string)
| TypeError (msg : string)
| IndexError (msg : string)
| ModuleNotFoundError (msg : string)
| FileNotFoundError (msg : string)
| JSONDecodeError (msg : string)
| TimeoutException (msg : string)
| NoSuchElementException (msg : string)
| WebDriverException (msg : string).

Definition exn_message (e : exn) : string :=
  match e with
  | ValueError m | TypeError m | IndexError m | ModuleNotFoundError m
  | FileNotFoundError m | JSONDecodeError m | TimeoutException m
  | NoSuchElementException m | WebDriverException m => m
  end.

(** [str(e)]: Selenium's exceptions print as [Message: ...] and a newline. *)
Definition exn_str (e : exn) : string :=
  match e with
  | TimeoutException m | NoSuchElementException m | WebDriverException m =>
      "Message: " +:+ m +:+ String "010" EmptyString
  | _ => exn_message e
  end.

Definition is_TimeoutException (e : exn) : bool :=
  match e with TimeoutException _ => true | _ => false end.
Definition is_NoSuchElementException (e : exn) : bool :=
  match e with NoSuchElementException _ => true | _ => false end.
Definition is_Exception (e : exn) : bool := true.

(** What the browser shows at one observation. *)
Record Page := {
  elements : locator → list WebElement;      (* find_elements *)
  page_source : string;
  current_url : string;
  performance_log : list (option string);    (* request URL of each entry *)
  cookies : list (string * string);          (* name, value *)
  script_error : option exn                  (* what execute_script raises *)
}.

Inductive key := ENTER | BACKSPACE.

Inductive script_arg := ArgStr (s : string) | ArgElem (e : WebElement).

(** Everything the client does to the outside, in the order done. *)
Inductive event :=
| Debug (msg : string)
| Print (s : string)
| Yield (fragment : string)
| NewWindow (h : nat)
| Get (url : string)
| CloseWindow (h : nat)
| SwitchTo (h : nat)
| Waited (timeout : Z) (loc : locator) (found : bool)
| Screenshot (file : string)
| Click (e : WebElement)
| SendKeys (e : WebElement) (k : key)
| ExecuteScript (script : string) (args : list script_arg)
| Cdp (cmd : string) (param : string)
| Sleep (ms : Z)
| DisplayStart
| DisplayStop
| ChromeStart (args : list string)
| Quit
| ThreadStart
| Subprocess (cmd : list string)
| ExtendPath
| WriteCookies (path : string) (cs : list (string * string)).

(** The machine the client runs on. *)
Record Host := {
  needs_virtual_display : bool;          (* Linux without DISPLAY *)
  display_error : option exn;            (* raised by importing or creating Display *)
  chrome_error : option exn;             (* raised by uc.Chrome *)
  ffmpeg_downloader : option bool;       (* module missing, or bool(ffmpeg_version) *)
  cookie_file : option (option (list (string * string)));
                                         (* no such path; not JSON; the cookies *)
  epoch : Z                              (* time.time() at start, in ms *)
}.

(** The attributes of a [ChatGPT] object. *)
Record Self := {
  session_token : option string;
  conversation_id : string;
  auth_type : option string;
  email : option string;
  password : option string;
  login_cookies_path : string;
  captcha_solver : option string;
  solver_apikey : string;
  proxy : option string;
  chrome_args : list string;
  moderation : bool;
  is_active : bool;
  has_driver : bool;                (* hasattr(self, "driver") *)
  has_display : bool                (* hasattr(self, "display") *)
}.

Record State := {
  self : Self;
  handles : list nat;               (* open windows and tabs *)
  current_window_handle : nat;
  fresh_handle : nat;
  host : Host;
  browser : nat → Page;             (* the n-th observation sees [browser n] *)
  tick : nat;                       (* observations made so far *)
  clock : Z;                        (* time slept so far, in ms *)
  trace : list (Z * event)          (* newest first, stamped with the clock *)
}.

Definition with_self (f : Self → Self) (s : State) : State :=
  {| self := f (self s); handles := handles s;
     current_window_handle := current_window_handle s;
     fresh_handle := fresh_handle s; host := host s; browser := browser s;
     tick := tick s; clock := clock s; trace := trace s |}.

Definition with_windows (hs : list nat) (cur fresh : nat) (s : State) : State :=
  {| self := self s; handles := hs; current_window_handle := cur;
     fresh_handle := fresh; host := host s; browser := browser s;
     tick := tick s; clock := clock s; trace := trace s |}.

Definition with_tick (t : nat) (s : State) : State :=
  {| self := self s; handles := handles s;
     current_window_handle := current_window_handle s;
     fresh_handle := fresh_handle s; host := host s; browser := browser s;
     tick := t; clock := clock s; trace := trace s |}.

Definition with_clock (c : Z) (s : State) : State :=
  {| self := self s; handles := handles s;
     current_window_handle := current_window_handle s;
     fresh_handle := fresh_handle s; host := host s; browser := browser s;
     tick := tick s; clock := c; trace := trace s |}.

Definition with_trace (tr : list (Z * event)) (s : State) : State :=
  {| self := self s; handles := handles s;
     current_window_handle := current_window_handle s;
     fresh_handle := fresh_handle s; host := host s; browser := browser s;
     tick := tick s; clock := clock s; trace := tr |}.

Definition set_session_token (v : option string) (o : Self) : Self :=
  {| session_token := v; conversation_id := conversation_id o;
     auth_type := auth_type o; email := email o; password := password o;
     login_cookies_path := login_cookies_path o;
     captcha_solver := captcha_solver o; solver_apikey := solver_apikey o;
     proxy := proxy o; chrome_args := chrome_args o;
     moderation := moderation o; is_active := is_active o;
     has_driver := has_driver o; has_display := has_display o |}.

Definition set_conversation_id (v : string) (o : Self) : Self :=
  {| session_token := session_token o; conversation_id := v;
     auth_type := auth_type o; email := email o; password := password o;
     login_cookies_path := login_cookies_path o;
     captcha_solver := captcha_solver o; solver_apikey := solver_apikey o;
     proxy := proxy o; chrome_args := chrome_args o;
     moderation := moderation o; is_active := is_active o;
     has_driver := has_driver o; has_display := has_display o |}.

Definition set_is_active (v : bool) (o : Self) : Self :=
  {| session_token := session_token o; conversation_id := conversation_id o;
     auth_type := auth_type o; email := email o; password := password o;
     login_cookies_path := login_cookies_path o;
     captcha_solver := captcha_solver o; solver_apikey := solver_apikey o;
     proxy := proxy o; chrome_args := chrome_args o;
     moderation := moderation o; is_active := v; has_driver := has_driver o;
     has_display := has_display o |}.

Definition set_has_driver (v : bool) (o : Self) : Self :=
  {| session_token := session_token o; conversation_id := conversation_id o;
     auth_type := auth_type o; email := email o; password := password o;
     login_cookies_path := login_cookies_path o;
     captcha_solver := captcha_solver o; solver_apikey := solver_apikey o;
     proxy := proxy o; chrome_args := chrome_args o;
     moderation := moderation o; is_active := is_active o; has_driver := v;
     has_display := has_display o |}.

Definition set_has_display (v : bool) (o : Self) : Self :=
  {| session_token := session_token o; conversation_id := conversation_id o;
     auth_type := auth_type o; email := email o; password := password o;
     login_cookies_path := login_cookies_path o;
     captcha_solver := captcha_solver o; solver_apikey := solver_apikey o;
     proxy := proxy o; chrome_args := chrome_args o;
     moderation := moderation o; is_active := is_active o;
     has_driver := has_driver o; has_display := v |}.

(** ** The monad: state, exceptions, and a step budget for loops *)

Inductive Res (A : Type) :=
| Ret (a : A) (s : State)        (* returned [a] *)
| Exc (e : exn) (s : State)      (* raised [e] *)
| Cut (s : State).               (* still running when the budget ran out *)
Arguments Ret {A} a s.
Arguments Exc {A} e s.
Arguments Cut {A} s.

Definition M (A : Type) : Type := State → Res A.

Global Instance M_ret : MRet M := λ A a s, Ret a s.

Global Instance M_bind : MBind M := λ A B f m s,
  match m s with
  | Ret a s' => f a s'
  | Exc e s' => Exc e s'
  | Cut s' => Cut s'
  end.

Definition raise {A} (e : exn) : M A := λ s, Exc e s.
Definition out_of_steps {A} : M A := λ s, Cut s.

(** [try: c  except <class>: h] *)
Definition try_except {A} (c : M A) (cls : exn → bool) (h : exn → M A) : M A :=
  λ s, match c s with
       | Exc e s' => if cls e then h e s' else Exc e s'
       | r => r
       end.

Definition get_state : M State := λ s, Ret s s.
Definition modify (f : State → State) : M unit := λ s, Ret () (f s).

Definition emit (e : event) : M unit :=
  modify (λ s, with_trace ((clock s, e) :: trace s) s).

(** One observation of the browser. *)
Definition observe : M Page :=
  λ s, Ret (browser s (tick s)) (with_tick (S (tick s)) s).

Definition debug (msg : string) : M unit := emit (Debug msg).
Definition print (s : string) : M unit := emit (Print s).

(** [time.sleep], in milliseconds *)
Definition sleep (ms : Z) : M unit :=
  emit (Sleep ms);; modify (λ s, with_clock (clock s + ms) s).

(** [int(time.time())] *)
Definition time_now : M Z :=
  s ← get_state; mret (Z.quot (epoch (host s) + clock s) 1000).

(** *** The driver *)

Definition driver_current_window_handle : M nat :=
  s ← get_state; mret (current_window_handle s).

Definition switch_to_new_window_tab : M unit :=
  s ← get_state;
  let h := fresh_handle s in
  modify (with_windows (handles s ++ [h]) h (S h));;
  emit (NewWindow h).

Definition driver_close : M unit :=
  s ← get_state;
  let h := current_window_handle s in
  modify (with_windows (filter (λ x, x ≠ h) (handles s)) h (fresh_handle s));;
  emit (CloseWindow h).

Definition switch_to_window (h : nat) : M unit :=
  s ← get_state;
  modify (with_windows (handles s) h (fresh_handle s));;
  emit (SwitchTo h).

Definition driver_get (url : string) : M unit := emit (Get url).
Definition save_screenshot (file : string) : M unit := emit (Screenshot file).
Definition click (e : WebElement) : M unit := emit (Click e).
Definition send_keys (e : WebElement) (k : key) : M unit := emit (SendKeys e k).
Definition execute_cdp_cmd (cmd param : string) : M unit := emit (Cdp cmd param).

Definition find_elements (loc : locator) : M (list WebElement) :=
  p ← observe; mret (elements p loc).

Definition find_element (loc : locator) : M WebElement :=
  es ← find_elements loc;
  match es with
  | e :: _ => mret e
  | [] => raise (NoSuchElementException "no such element")
  end.

Definition execute_script (script : string) (args : list script_arg) : M unit :=
  p ← observe;
  emit (ExecuteScript script args);;
  match script_error p with
  | Some e => raise e
  | None => mret ()
  end.

Definition driver_page_source : M string := p ← observe; mret (page_source p).
Definition driver_current_url : M string := p ← observe; mret (current_url p).
Definition get_log_performance : M (list (option string)) :=
  p ← observe; mret (performance_log p).
Definition get_cookies : M (list (string * string)) :=
  p ← observe; mret (cookies p).

(** [WebDriverWait(driver, t).until(EC.presence_of_element_located(loc))]:
    one observation, which tells whether the element shows up within the
    bound. *)
Definition wait_until_present (timeout : Z) (loc : locator) : M WebElement :=
  p ← observe;
  match elements p loc with
  | e :: _ => emit (Waited timeout loc true);; mret e
  | [] => emit (Waited timeout loc false);; raise (TimeoutException EmptyString)
  end.

(** [WebDriverWait(driver, t).until_not(EC.presence_of_element_located(loc))] *)
Definition wait_until_absent (timeout : Z) (loc : locator) : M unit :=
  p ← observe;
  match elements p loc with
  | [] => emit (Waited timeout loc false)
  | _ :: _ => emit (Waited timeout loc true);; raise (TimeoutException EmptyString)
  end.

(** [WebDriverWait(driver, t).until(EC.element_to_be_clickable(loc))] *)
Definition wait_until_clickable (timeout : Z) (loc : locator) : M WebElement :=
  p ← observe;
  match elements p loc with
  | e :: _ =>
      if we_clickable e
      then emit (Waited timeout loc true);; mret e
      else emit (Waited timeout loc false);; raise (TimeoutException EmptyString)
  | [] => emit (Waited timeout loc false);; raise (TimeoutException EmptyString)
  end.

(** [xs[-1]] *)
Definition last_item {A} (xs : list A) : M A :=
  match last xs with
  | Some x => mret x
  | None => raise (IndexError "list index out of range")
  end.

(** [s[0]] *)
Definition first_char (s : string) : M ascii :=
  match s with
  | String c _ => mret c
  | EmptyString => raise (IndexError "string index out of range")
  end.

(** ** The client's constants *)

(** the double-quote character, for selectors and payloads *)
Definition dq : string := String "034" EmptyString.
Definition nl : string := String "010" EmptyString.

Definition cf_challenge_form : locator := (ID, "challenge-form").

Definition chatgpt_textbox : locator := (TAG_NAME, "textarea").
Definition chatgpt_streaming : locator := (CLASS_NAME, "result-streaming").
Definition chatgpt_big_response : locator :=
  (XPATH, "//div[@class=" +:+ dq +:+ "flex-1 overflow-hidden" +:+ dq +:+ "]//div[p]").
Definition chatgpt_small_response : locator :=
  (XPATH, "//div[starts-with(@class, " +:+ dq +:+
          "markdown prose w-full break-words" +:+ dq +:+ ")]").
Definition chatgpt_alert : locator :=
  (XPATH, "//div[@role=" +:+ dq +:+ "alert" +:+ dq +:+ "]").
Definition chatgpt_intro : locator := (ID, "headlessui-portal-root").
Definition chatgpt_login_btn : locator :=
  (XPATH, "//button[text()=" +:+ dq +:+ "Log in" +:+ dq +:+ "]").
Definition chatgpt_login_h1 : locator :=
  (XPATH, "//h1[text()=" +:+ dq +:+ "Welcome back" +:+ dq +:+ "]").
Definition chatgpt_logged_h1 : locator :=
  (XPATH, "//h1[text()=" +:+ dq +:+ "ChatGPT" +:+ dq +:+ "]").
Definition chatgpt_capacity : locator :=
  (XPATH, "//div[text()=" +:+ dq +:+ "ChatGPT is at capacity right now" +:+ dq +:+ "]").

Definition delete_button : locator := (XPATH, "//a/div[2]/button[3]").
Definition confirmation_button : locator :=
  (XPATH, "//*[@id=" +:+ dq +:+ "radix-:rq:" +:+ dq +:+
          "]/div[2]/div/div/button[1]/div").

Definition chatgpt_chat_url : string := "https://chat.openai.com/chat".
Definition session_url : string := "https://chat.openai.com/api/auth/session".
Definition login_url : string := "https://chat.openai.com/auth/login".
Definition session_cookie : string := "__Secure-next-auth.session-token".
Definition gen_title_url : string :=
  "https://chat.openai.com/backend-api/conversation/gen_title".

(** [(https?|socks(4|5)?):\/\/.+:\d{1,5}] *)
Definition proxy_pattern : Re.regex :=
  Re.Cat
    (Re.Alt (Re.Cat (Re.lit "http") (Re.opt (Re.chr "s")))
            (Re.Cat (Re.lit "socks") (Re.opt (Re.Alt (Re.chr "4") (Re.chr "5")))))
    (Re.Cat (Re.lit "://")
       (Re.Cat (Re.plus Re.dot)
          (Re.Cat (Re.chr ":") (Re.between 1 4 Re.digit)))).

(** [[0-9a-f]{8}-[0-9a-f]{4}-[0-9a-f]{4}-[0-9a-f]{4}-[0-9a-f]{12}] *)
Definition uuid_pattern : Re.regex :=
  Re.Cat (Re.times 8 Re.hex) (Re.Cat (Re.chr "-")
  (Re.Cat (Re.times 4 Re.hex) (Re.Cat (Re.chr "-")
  (Re.Cat (Re.times 4 Re.hex) (Re.Cat (Re.chr "-")
  (Re.Cat (Re.times 4 Re.hex) (Re.Cat (Re.chr "-")
  (Re.times 12 Re.hex)))))))).

(** [repr] of what [pattern.search] returns *)
Definition repr_match (subject : string) (m : option (nat * nat)) : string :=
  match m with
  | None => "None"
  | Some (i, j) =>
      "<re.Match object; span=(" +:+ pretty i +:+ ", " +:+ pretty j +:+
      "), match='" +:+ String.substring i (j - i) subject +:+ "'>"
  end.

Definition keep_alive_script : string :=
  "window.localStorage.setItem(" +:+ dq +:+ "nextauth.message" +:+ dq +:+
  ", arguments[0])".

(** [... % int(time.time())] *)
Definition keep_alive_payload (t : Z) : string :=
  "{" +:+ dq +:+ "event" +:+ dq +:+ ":" +:+ dq +:+ "session" +:+ dq +:+ "," +:+
  dq +:+ "data" +:+ dq +:+ ":{" +:+ dq +:+ "trigger" +:+ dq +:+ ":" +:+
  dq +:+ "getSession" +:+ dq +:+ "}," +:+ dq +:+ "timestamp" +:+ dq +:+ ":" +:+
  pretty t +:+ "}".

Definition remove_script : string := "arguments[0].remove()".

Definition type_script : string :=
  nl +:+ "        var element = arguments[0], txt = arguments[1];" +:+
  nl +:+ "        element.value += txt;" +:+
  nl +:+ "        element.dispatchEvent(new Event(" +:+ dq +:+ "change" +:+ dq +:+ "));" +:+
  nl +:+ "        ".

(** What a public operation returns. *)
Inductive pyval :=
| PyNone
| PyDict (d : gmap string string).

(** The constructor's arguments. *)
Record Args := {
  arg_session_token : option string;
  arg_conversation_id : string;
  arg_auth_type : option string;
  arg_email : option string;
  arg_password : option string;
  arg_login_cookies_path : string;
  arg_captcha_solver : option string;
  arg_solver_apikey : string;
  arg_proxy : option string;
  arg_chrome_args : list string;
  arg_moderation : bool;
  arg_verbose : bool
}.


(** ** The client *)

Section Client.

(** Code the client calls and the sources do not hold: the [markdownify]
    package, [json.loads] (on the session endpoint's body, an object whose
    values are kept as strings; [None] when the text is not JSON), and the
    repository's own [Auth0.login], which drives the identity provider's
    pages. *)
Variable markdownify : string → string.
Variable json_loads : string → option (gmap string string).
Variable Auth0_login : M unit.

(** [__check_capacity] *)
Fixpoint check_capacity (fuel : nat) (target_url : string) : M unit :=
  match fuel with
  | O => out_of_steps
  | S fuel' =>
      again ← try_except
        (debug "Checking if ChatGPT is at capacity...";;
         wait_until_present 3 chatgpt_capacity;;
         debug "ChatGPT is at capacity, retrying...";;
         driver_get target_url;;
         mret true)
        is_TimeoutException
        (λ _, debug "ChatGPT is not at capacity";; mret false);
      if again : bool then check_capacity fuel' target_url else mret ()
  end.

(** [__login] *)
Definition login (fuel : nat) : M unit :=
  debug "Opening new tab...";;
  original_window ← driver_current_window_handle;
  switch_to_new_window_tab;;
  debug "Opening login page...";;
  driver_get login_url;;
  check_capacity fuel login_url;;
  debug "Clicking login button...";;
  btn ← wait_until_clickable 5 chatgpt_login_btn;
  click btn;;
  wait_until_present 5 chatgpt_login_h1;;
  Auth0_login;;
  debug "Checking if login was successful";;
  try_except
    (wait_until_present 5 chatgpt_logged_h1;;
     s ← get_state;
     if Py.truthy_str (login_cookies_path (self s))
     then
       debug "Saving cookies...";;
       cs ← get_cookies;
       emit (WriteCookies (login_cookies_path (self s))
               (filter (λ i, i.1 = session_cookie) cs))
     else mret ())
    is_TimeoutException
    (λ e, save_screenshot "login_failed.png";; raise e);;
  debug "Closing tab...";;
  driver_close;;
  switch_to_window original_window.

(** [__ensure_cf], from "Cloudflare challenge passed" on *)
Definition validate_authorization (fuel : nat) (original_window : nat) : M unit :=
  debug "Cloudflare challenge passed";;
  debug "Validating authorization...";;
  response ← driver_page_source;
  c ← first_char response;
  response ← (if negb (Ascii.eqb c "{")
              then e ← find_element (TAG_NAME, "pre"); mret (we_text e)
              else mret response);
  response ← (match json_loads response with
              | Some d => mret d
              | None => raise (JSONDecodeError "Expecting value")
              end);
  (if bool_decide (response = ∅)
      || bool_decide (response !! "error" = Some "RefreshAccessTokenError")
   then
     debug "Authorization is invalid";;
     s ← get_state;
     if negb (Py.truthy (auth_type (self s)))
     then raise (ValueError "Invalid session token")
     else login fuel
   else mret ());;
  debug "Authorization is valid";;
  debug "Closing tab...";;
  driver_close;;
  switch_to_window original_window.

(** [__ensure_cf] *)
Fixpoint ensure_cf (fuel : nat) (retry : Z) : M unit :=
  match fuel with
  | O => out_of_steps
  | S fuel' =>
      debug "Opening new tab...";;
      original_window ← driver_current_window_handle;
      switch_to_new_window_tab;;
      debug "Getting Cloudflare challenge...";;
      driver_get session_url;;
      cleared ← try_except
        (wait_until_absent 10 cf_challenge_form;; mret true)
        is_TimeoutException
        (λ _, mret false);
      if cleared : bool
      then validate_authorization fuel' original_window
      else
        debug ("Cloudflare challenge failed, retrying " +:+ pretty retry +:+ "...");;
        save_screenshot ("cf_failed_" +:+ pretty retry +:+ ".png");;
        if retry >? 0
        then
          debug "Closing tab...";;
          driver_close;;
          switch_to_window original_window;;
          ensure_cf fuel' (retry - 1)
        else raise (ValueError "Cloudflare challenge failed")
  end.

(** [__del__] *)
Definition del : M unit :=
  modify (with_self (set_is_active false));;
  s ← get_state;
  (if has_driver (self s)
   then debug "Closing browser...";; emit Quit
   else mret ());;
  (if has_display (self s)
   then debug "Closing display...";; emit DisplayStop
   else mret ()).

(** One turn of [__keep_alive]'s loop body. *)
Definition keep_alive_body : M unit :=
  debug "Updating session...";;
  t ← time_now;
  let payload := keep_alive_payload t in
  try_except
    (execute_script keep_alive_script [ArgStr payload])
    is_Exception
    (λ e, debug ("Failed to update session: " +:+ exn_str e));;
  sleep 60000.

(** [__keep_alive], run on its own thread.  The only thing another thread
    does to what the loop reads is [__del__] clearing the flag;
    [teardown k] tells whether the owner runs [__del__] between the
    [k]-th test of the flag and the one before. *)
Fixpoint keep_alive (fuel : nat) (teardown : nat → bool) (k : nat) : M unit :=
  match fuel with
  | O => out_of_steps
  | S fuel' =>
      (if teardown k then del else mret ());;
      s ← get_state;
      if is_active (self s)
      then keep_alive_body;; keep_alive fuel' teardown (S k)
      else mret ()
  end.

(** [__check_blocking_elements] *)
Definition check_blocking_elements : M unit :=
  debug "Looking for blocking elements...";;
  try_except
    (intro ← wait_until_present 3 chatgpt_intro;
     debug "Dismissing intro...";;
     execute_script remove_script [ArgElem intro])
    is_TimeoutException
    (λ _, mret ());;
  alerts ← find_elements chatgpt_alert;
  match alerts with
  | a :: _ =>
      debug "Dismissing alert...";;
      execute_script remove_script [ArgElem a]
  | [] => mret ()
  end.

(** The response element's error check, shared by the two ways of reading
    a response: [if responses: ... raise ValueError(response.text)]. *)
Definition raise_if_error (responses : list WebElement) : M unit :=
  match last responses with
  | Some response =>
      if Py.contains "text-red" (Py.str_opt (we_class response))
      then debug "Response is an error";; raise (ValueError (we_text response))
      else mret ()
  | None => mret ()
  end.

(** [__stream_message], a generator: [body] is what the consumer's [for]
    loop does with each fragment, run where the generator yields. *)
Fixpoint stream_message (fuel : nat) (prev_content : string)
    (body : string → M unit) : M unit :=
  match fuel with
  | O => out_of_steps
  | S fuel' =>
      result_streaming ← find_elements chatgpt_streaming;
      responses ← find_elements chatgpt_big_response;
      raise_if_error responses;;
      smalls ← find_elements chatgpt_small_response;
      response ← last_item smalls;
      let content := we_text response in
      prev_content ←
        (if negb (String.eqb content prev_content)
         then
           let fragment := Py.slice_from (String.length prev_content) content in
           emit (Yield fragment);;
           body fragment;;
           mret content
         else mret prev_content);
      match result_streaming with
      | [] => mret ()
      | _ :: _ => stream_message fuel' prev_content body
      end
  end.

(** [__click_button] *)
Definition click_button (xpath : string) : M unit :=
  debug ("Clicking button: " +:+ xpath);;
  btn ← find_element (XPATH, xpath);
  click btn.

(** [__remove_starting_message] *)
Definition remove_starting_message : M unit :=
  s ← get_state;
  let xpath :=
    if Py.truthy_str (conversation_id (self s))
    then "//*[@id=" +:+ dq +:+ "radix-:ri:" +:+ dq +:+ "]/div[2]/div[1]/div[2]/button"
    else "//*[@id=" +:+ dq +:+ "radix-:re:" +:+ dq +:+ "]/div[2]/div[1]/div[2]/button" in
  try_except
    (click_button xpath;;
     click_button (xpath +:+ "[2]");;
     click_button (xpath +:+ "[2]");;
     debug "Starting message removed")
    is_NoSuchElementException
    (λ _, debug "Starting message not found").

(** The conversation id recovered from the performance log: the last path
    segment of the first request to the title endpoint, else empty. *)
Fixpoint conversation_id_from_log (log_entries : list (option string)) : string :=
  match log_entries with
  | [] => EmptyString
  | entry :: rest =>
      let url := default EmptyString entry in
      if Py.contains gen_title_url url
      then default EmptyString (last (Py.split url "/"))
      else conversation_id_from_log rest
  end.

(** [send_message], from "Waiting for completion..." on *)
Definition read_response : M pyval :=
  debug "Waiting for completion...";;
  wait_until_absent 120 chatgpt_streaming;;
  debug "Getting response...";;
  responses ← find_elements chatgpt_big_response;
  raise_if_error responses;;
  response ← find_elements chatgpt_small_response;
  let content :=
    match last response with
    | Some r => Py.replace (markdownify (we_innerHTML r)) "Copy code`" "`"
    | None => EmptyString
    end in
  s ← get_state;
  conversation_id ←
    (if negb (Py.truthy_str (conversation_id (self s)))
     then
       log_entries ← get_log_performance;
       let conversation_id := conversation_id_from_log log_entries in
       url ← driver_current_url;
       print (repr_match url (Re.span uuid_pattern url) +:+ nl);;
       mret conversation_id
     else mret (conversation_id (self s)));
  mret (PyDict (<["message" := content]>
                  (<["conversation_id" := conversation_id]> ∅))).

(** [send_message], up to the message being typed and sent *)
Definition submit_message (fuel : nat) (message : string) : M unit :=
  debug "Ensuring Cloudflare cookies...";;
  ensure_cf fuel 3;;
  debug "Sending message...";;
  textbox ← wait_until_clickable 5 chatgpt_textbox;
  click textbox;;
  execute_script type_script [ArgElem textbox; ArgStr message];;
  send_keys textbox ENTER;;
  send_keys textbox ENTER;;
  send_keys textbox BACKSPACE.

(** [send_message] *)
Definition send_message (fuel : nat) (message : string) (stream : bool) : M pyval :=
  submit_message fuel message;;
  if stream
  then
    stream_message fuel EmptyString (λ i, print i;; sleep 100);;
    mret (PyDict ∅)
  else read_response.

(** [change_conversation], the body of its [try] *)
Definition change_conversation_try (fuel : nat) (conversation_id' : string) : M pyval :=
  driver_get ("https://chat.openai.com/c/" +:+ conversation_id');;
  check_capacity fuel ("https://chat.openai.com/c/" +:+ conversation_id');;
  check_blocking_elements;;
  modify (with_self (set_conversation_id conversation_id'));;
  mret (PyDict {["message" := "Changed Successfully"]}).

(** [change_conversation] *)
Definition change_conversation (fuel : nat) (conversation_id' : string) : M pyval :=
  s ← get_state;
  if String.eqb (conversation_id (self s)) conversation_id'
  then
    debug "Already in conversation";;
    mret (PyDict {["message" := "Already in conversation"]})
  else
    debug "Changing conversation...";;
    try_except
      (change_conversation_try fuel conversation_id')
      is_NoSuchElementException
      (λ _,
         debug "Conversation not found";;
         save_screenshot "change_conversation_failed.png";;
         mret (PyDict {["message" := "Conversation not found"]})).

(** [start_new_conversation] *)
Definition start_new_conversation : M unit :=
  debug "Starting new conversation...";;
  modify (with_self (set_conversation_id EmptyString));;
  driver_get chatgpt_chat_url.

(** [delete_conversation]; [logger.debug] returns [None], and so does
    every [return self.logger.debug(...)] *)
Definition delete_conversation : M pyval :=
  s ← get_state;
  if negb (Py.truthy_str (conversation_id (self s)))
  then debug "No conversation to delete";; mret PyNone
  else
    try_except
      (btn ← find_element delete_button;
       click btn;;
       confirm ← find_element confirmation_button;
       click confirm;;
       modify (with_self (set_conversation_id EmptyString));;
       debug "Conversation Deleted";;
       mret PyNone)
      is_NoSuchElementException
      (λ _, debug "Conversation not Deleted";; mret PyNone).

(** [refresh_chat_page] *)
Definition refresh_chat_page (fuel : nat) : M unit :=
  url ← driver_current_url;
  if negb (Py.startswith url chatgpt_chat_url)
  then debug "Current URL is not chat page, skipping refresh"
  else
    driver_get chatgpt_chat_url;;
    check_capacity fuel chatgpt_chat_url;;
    check_blocking_elements.

(** [__init_browser] *)
Definition init_browser (fuel : nat) : M unit :=
  s ← get_state;
  (if needs_virtual_display (host s)
   then
     debug "Starting virtual display...";;
     match display_error (host s) with
     | Some (ModuleNotFoundError _) =>
         raise (ValueError "Please install PyVirtualDisplay to start a virtual display by running `pip install PyVirtualDisplay`")
     | Some (FileNotFoundError m) =>
         if Py.contains "No such file or directory: 'Xvfb'" m
         then raise (ValueError "Please install Xvfb to start a virtual display by running `sudo apt install xvfb`")
         else raise (FileNotFoundError m)
     | Some e => raise e
     | None => modify (with_self (set_has_display true));; emit DisplayStart
     end
   else mret ());;
  debug "Initializing browser...";;
  let options :=
    ["--window-size=1024,768"]
    ++ match proxy (self s) with
       | Some p => if Py.truthy_str p then ["--proxy-server=" +:+ p] else []
       | None => []
       end
    ++ chrome_args (self s) in
  match chrome_error (host s) with
  | Some (TypeError m) =>
      if String.eqb m "expected str, bytes or os.PathLike object, not NoneType"
      then raise (ValueError "Chrome installation not found")
      else raise (TypeError m)
  | Some e => raise e
  | None => modify (with_self (set_has_driver true));; emit (ChromeStart options)
  end;;
  (if Py.truthy_str (login_cookies_path (self s))
   then
     match cookie_file (host s) with
     | None => mret ()
     | Some contents =>
         debug "Restoring cookies...";;
         match contents with
         | Some cs =>
             match last (filter (λ c, c.1 = session_cookie) cs) with
             | Some c => modify (with_self (set_session_token (Some c.2)))
             | None => mret ()
             end
         | None =>
             debug ("Invalid cookies file: " +:+ login_cookies_path (self s))
         end
     end
   else mret ());;
  s ← get_state;
  match session_token (self s) with
  | Some tok =>
      if Py.truthy_str tok
      then debug "Restoring session_token...";;
           execute_cdp_cmd "Network.setCookie" tok
      else mret ()
  | None => mret ()
  end;;
  (if negb (moderation (self s))
   then debug "Blocking moderation...";;
        execute_cdp_cmd "Network.setBlockedURLs"
          "https://chat.openai.com/backend-api/moderations"
   else mret ());;
  debug "Ensuring Cloudflare cookies...";;
  ensure_cf fuel 3;;
  debug "Opening chat page...";;
  driver_get (chatgpt_chat_url +:+ "/" +:+ conversation_id (self s));;
  check_blocking_elements;;
  modify (with_self (set_is_active true));;
  emit ThreadStart.

(** The attributes [__init__] stores; [__is_active], [driver] and
    [display] are not set yet. *)
Definition self_of_args (a : Args) : Self :=
  {| session_token := arg_session_token a;
     conversation_id := arg_conversation_id a;
     auth_type := arg_auth_type a; email := arg_email a;
     password := arg_password a;
     login_cookies_path := arg_login_cookies_path a;
     captcha_solver := arg_captcha_solver a;
     solver_apikey := arg_solver_apikey a; proxy := arg_proxy a;
     chrome_args := arg_chrome_args a; moderation := arg_moderation a;
     is_active := false; has_driver := false; has_display := false |}.




End Client.


(** ** The rest of the client *)

(** [element.find_elements(by, value)]: a query like the driver's, asked
    below the element [parent]; the page observed answers it. *)
Definition element_find_elements (parent : WebElement) (loc : locator) :
    M (list WebElement) :=
  p ← observe; mret (elements p loc).

Definition conversation_div : locator :=
  (XPATH, "//*[@id=" +:+ dq +:+ "__next" +:+ dq +:+
          "]/div[1]/div[2]/div/main/div[1]/div/div/div").
Definition reply_selector : locator := (CSS_SELECTOR, ".markdown").
Definition user_selector : locator := (CSS_SELECTOR, ".flex.flex-grow.flex-col.gap-3").

(** [dict(pairs)]: the pairs are entered in order, a later one replaces an
    earlier one with the same key. *)
Definition py_dict (pairs : list (string * string)) : gmap string string :=
  foldl (λ d kv, <[kv.1 := kv.2]> d) ∅ pairs.

(** [get_conversation_data] *)
Definition get_conversation_data : M pyval :=
  try_except
    (data_div ← find_element conversation_div;
     reply_elems ← element_find_elements data_div reply_selector;
     let reply_elems := we_text <$> reply_elems in
     user_elems ← element_find_elements data_div user_selector;
     let user_elems := filter (λ t, t ∉ reply_elems) (we_text <$> user_elems) in
     let data := zip user_elems reply_elems in
     mret (PyDict (py_dict data)))
    is_NoSuchElementException
    (λ _, mret (PyDict {["message" := "No conversation found"]})).

(** ** Vocabulary of the statements *)

(** Events stamped with one clock value. *)
Definition stamp (c : Z) (evs : list event) : list (Z * event) :=
  (λ e, (c, e)) <$> evs.

(** The state after the events [evs] (newest first) and nothing else. *)
Definition push (evs : list event) (s : State) : State :=
  with_trace (stamp (clock s) evs ++ trace s) s.

(** The state after [n] more observations and nothing else. *)
Definition advance (n : nat) (s : State) : State :=
  with_tick (n + tick s) s.

(** [k] times the events [evs] *)
Fixpoint rounds (k : nat) (evs : list event) : list event :=
  match k with
  | O => []
  | S k' => evs ++ rounds k' evs
  end.

(** *** Capacity Waiter *)

(** the [k]-th poll from [s] on finds the capacity banner *)
Definition at_capacity (s : State) (k : nat) : Prop :=
  elements (browser s (k + tick s)) chatgpt_capacity ≠ [].

(** what one poll that finds the banner does, newest first *)
Definition capacity_round (url : string) : list event :=
  [Get url; Debug "ChatGPT is at capacity, retrying...";
   Waited 3 chatgpt_capacity true;
   Debug "Checking if ChatGPT is at capacity..."].

(** what the poll that finds no banner does *)
Definition capacity_exit : list event :=
  [Debug "ChatGPT is not at capacity"; Waited 3 chatgpt_capacity false;
   Debug "Checking if ChatGPT is at capacity..."].

(** *** Challenge Gate *)

(** the challenge form is still there at the [k]-th observation from [s] on *)
Definition challenge_present (s : State) (k : nat) : Prop :=
  elements (browser s (k + tick s)) cf_challenge_form ≠ [].

(** challenge attempts made: the waits on the challenge form *)
Fixpoint challenge_attempts (tr : list (Z * event)) : nat :=
  match tr with
  | [] => O
  | (_, Waited _ loc _) :: tr' =>
      ((if decide (loc = cf_challenge_form) then 1 else 0)
       + challenge_attempts tr')%nat
  | _ :: tr' => challenge_attempts tr'
  end.

(** how every attempt starts, in the new tab [h], newest first *)
Definition challenge_opening (h : nat) : list event :=
  [Get session_url; Debug "Getting Cloudflare challenge..."; NewWindow h;
   Debug "Opening new tab..."].

Definition challenge_failed (retry : Z) : list event :=
  [Screenshot ("cf_failed_" +:+ pretty retry +:+ ".png");
   Debug ("Cloudflare challenge failed, retrying " +:+ pretty retry +:+ "...");
   Waited 10 cf_challenge_form true].

(** the state after an attempt that failed with retries left: the tab is
    closed again and the window the call started in is current *)
Definition failed_attempt (retry : Z) (s : State) : State :=
  let h := fresh_handle s in
  let w := current_window_handle s in
  push ([SwitchTo w; CloseWindow h; Debug "Closing tab..."]
          ++ challenge_failed retry ++ challenge_opening h)
    (advance 1 (with_windows (filter (λ x, x ≠ h) (handles s ++ [h])) w (S h) s)).

(** the state in which the last attempt gives up: the tab is open and
    current *)
Definition last_attempt (retry : Z) (s : State) : State :=
  let h := fresh_handle s in
  push (challenge_failed retry ++ challenge_opening h)
    (advance 1 (with_windows (handles s ++ [h]) h (S h) s)).

(** the state after an attempt that met no challenge *)
Definition passed_attempt (s : State) : State :=
  let h := fresh_handle s in
  push (Waited 10 cf_challenge_form false :: challenge_opening h)
    (advance 1 (with_windows (handles s ++ [h]) h (S h) s)).

(** *** Response Watcher *)

(** the fragments the generator has yielded, oldest first *)
Fixpoint yields (tr : list (Z * event)) : list string :=
  match tr with
  | [] => []
  | (_, Yield fragment) :: tr' => yields tr' ++ [fragment]
  | _ :: tr' => yields tr'
  end.

(** The [i]-th turn of the watcher's loop started in [s] makes three
    observations: the streaming marker, the response containers, and the
    response texts. *)
Definition poll_streaming (s : State) (i : nat) : list WebElement :=
  elements (browser s (3 * i + tick s)) chatgpt_streaming.
Definition poll_responses (s : State) (i : nat) : list WebElement :=
  elements (browser s (3 * i + 1 + tick s)) chatgpt_big_response.
Definition poll_text (s : State) (i : nat) : option string :=
  we_text <$> last (elements (browser s (3 * i + 2 + tick s)) chatgpt_small_response).

(** the element carries the error style *)
Definition error_styled (e : WebElement) : bool :=
  Py.contains "text-red" (Py.str_opt (we_class e)).

(** the last response container, if any, does not *)
Definition no_error (responses : list WebElement) : Prop :=
  ∀ e, last responses = Some e → error_styled e = false.

(** A consumer that takes each fragment and leaves the browser alone:
    it returns, makes no observation, and yields nothing itself. *)
Definition quiet (body : string → M unit) : Prop :=
  ∀ fragment s, ∃ s',
    body fragment s = Ret () s' ∧ browser s' = browser s ∧ tick s' = tick s
    ∧ yields (trace s') = yields (trace s).

(** The fragments expected for the polled texts [texts] after the text
    [prev]: nothing for a text equal to the one before it, else what lies
    beyond the length of the one before it. *)
Fixpoint fragments (prev : string) (texts : list string) : list string :=
  match texts with
  | [] => []
  | c :: rest =>
      if String.eqb c prev
      then fragments prev rest
      else Py.slice_from (String.length prev) c :: fragments c rest
  end.

(** each text is a prefix of the next, starting with [prev] *)
Fixpoint growing (prev : string) (texts : list string) : Prop :=
  match texts with
  | [] => True
  | c :: rest => String.prefix prev c = true ∧ growing c rest
  end.

(** concatenation *)
Definition join (l : list string) : string := foldr String.append EmptyString l.

(** *** Session Keeper *)

(** the times, on the clock, at which the liveness signal was sent, oldest
    first *)
Fixpoint signal_times (tr : list (Z * event)) : list Z :=
  match tr with
  | [] => []
  | (t, ExecuteScript script _) :: tr' =>
      signal_times tr' ++ (if String.eqb script keep_alive_script then [t] else [])
  | _ :: tr' => signal_times tr'
  end.

(** [start], [start + 60 s], ... : [n] times in all, in milliseconds *)
Fixpoint every_minute (start : Z) (n : nat) : list Z :=
  match n with
  | O => []
  | S n' => start :: every_minute (start + 60000) n'
  end.

(** what is logged when the delivery about to be made fails *)
Definition delivery_log (s : State) : list event :=
  match script_error (browser s (tick s)) with
  | Some e => [Debug ("Failed to update session: " +:+ exn_str e)]
  | None => []
  end.

(** the state after one turn of the keeper's loop *)
Definition kept_alive (s : State) : State :=
  with_clock (clock s + 60000)
    (push ([Sleep 60000] ++ delivery_log s ++
           [ExecuteScript keep_alive_script
              [ArgStr (keep_alive_payload (Z.quot (epoch (host s) + clock s) 1000))];
            Debug "Updating session..."])
       (advance 1 s)).

Fixpoint turns (n : nat) (s : State) : State :=
  match n with
  | O => s
  | S n' => turns n' (kept_alive s)
  end.

(** the state after [__del__] *)
Definition torn_down (s : State) : State :=
  push ((if has_display (self s) then [DisplayStop; Debug "Closing display..."] else [])
        ++ (if has_driver (self s) then [Quit; Debug "Closing browser..."] else []))
    (with_self (set_is_active false) s).

(** *** Constructor *)





(** the checks of the arguments, as one condition on the attributes *)
Definition rejected (o : Self) : bool :=
  negb (Py.truthy (session_token o))
    && (negb (Py.truthy (email o)) || negb (Py.truthy (password o))
        || negb (Py.truthy (auth_type o)))
  || negb (bool_decide (auth_type o ∈
             [None; Some "google"; Some "microsoft"; Some "openai"]))
  || negb (bool_decide (captcha_solver o ∈
             [None; Some "pypasser"; Some "2captcha"]))
  || Py.eq_lit (captcha_solver o) "2captcha" && negb (Py.truthy_str (solver_apikey o))
  || Py.truthy (proxy o) && negb (Re.search proxy_pattern (Py.str_opt (proxy o))).


(** *** What a pattern matches *)

(** [matches r s]: the whole of [s] is matched by [r]. *)
Inductive matches : Re.regex → string → Prop :=
| matches_eps : matches Re.Eps EmptyString
| matches_chr p c : p c = true → matches (Re.Chr p) (String c EmptyString)
| matches_cat r1 r2 s1 s2 s :
    matches r1 s1 → matches r2 s2 → s = s1 +:+ s2 → matches (Re.Cat r1 r2) s
| matches_alt_l r1 r2 s : matches r1 s → matches (Re.Alt r1 r2) s
| matches_alt_r r1 r2 s : matches r2 s → matches (Re.Alt r1 r2) s
| matches_star_nil r : matches (Re.Star r) EmptyString
| matches_star_cons r s1 s2 s :
    matches r s1 → matches (Re.Star r) s2 → s = s1 +:+ s2 →
    matches (Re.Star r) s.

(** every character of [s] satisfies [p] *)
Fixpoint all_chars (p : ascii → bool) (s : string) : bool :=
  match s with
  | EmptyString => true
  | String c s' => p c && all_chars p s'
  end.



(** *** Transcript *)

(** the reply texts and the prompt texts [get_conversation_data] reads from
    [s], when the conversation container is there *)
Definition reply_texts (s : State) : list string :=
  we_text <$> elements (browser s (1 + tick s)) reply_selector.
Definition prompt_texts (s : State) : list string :=
  filter (λ t, t ∉ reply_texts s)
    (we_text <$> elements (browser s (2 + tick s)) user_selector).

(** *** Reading a response *)

Definition not_slash (c : ascii) : bool := negb (Ascii.eqb c "/").

(** the message [send_message] returns without streaming: the last response
    text element, as markdown *)
Definition response_markdown (markdownify : string → string) (s : State) : string :=
  match last (elements (browser s (2 + tick s)) chatgpt_small_response) with
  | Some r => Py.replace (markdownify (we_innerHTML r)) "Copy code`" "`"
  | None => EmptyString
  end.

(** the dictionary it returns *)
Definition response_dict (message conversation_id : string) : pyval :=
  PyDict (<["message" := message]> (<["conversation_id" := conversation_id]> ∅)).

Definition reading_events : list event :=
  [Debug "Getting response..."; Waited 120 chatgpt_streaming false;
   Debug "Waiting for completion..."].

(** *** Session check *)

(** The text [__ensure_cf] hands to [json.loads] when it validates the
    session in [s0], and the observations it takes: the page source when it
    starts with a brace, else the text of the first [pre] element. *)
Definition session_text (s0 : State) : option (string * nat) :=
  match page_source (browser s0 (tick s0)) with
  | EmptyString => None
  | String c _ as src =>
      if Ascii.eqb c "{"
      then Some (src, 1%nat)
      else
        match elements (browser s0 (1 + tick s0)) (TAG_NAME, "pre") with
        | e :: _ => Some (we_text e, 2%nat)
        | [] => None
        end
  end.

(** the body says the session cannot be used *)
Definition session_invalid (d : gmap string string) : Prop :=
  d = ∅ ∨ d !! "error" = Some "RefreshAccessTokenError".

(** the state in which a run ends *)
Definition final {A} (r : Res A) : State :=
  match r with
  | Ret _ s | Exc _ s | Cut s => s
  end.

(** [s'] differs from [s] at most in observations made, clock and trace *)
Definition same_session (s s' : State) : Prop :=
  self s' = self s ∧ handles s' = handles s
  ∧ current_window_handle s' = current_window_handle s
  ∧ fresh_handle s' = fresh_handle s ∧ host s' = host s
  ∧ browser s' = browser s.

(** *** Login *)

(** the state in which [__login] calls the identity provider, when the
    login page is at no capacity limit and shows the button [btn] and the
    heading *)
Definition login_opened (btn : WebElement) (s : State) : State :=
  let h := fresh_handle s in
  push ([Waited 5 chatgpt_login_h1 true; Click btn;
         Waited 5 chatgpt_login_btn true; Debug "Clicking login button..."]
        ++ capacity_exit
        ++ [Get login_url; Debug "Opening login page..."; NewWindow h;
            Debug "Opening new tab..."])
    (advance 3 (with_windows (handles s ++ [h]) h (S h) s)).

(** the cookies [__login] keeps *)
Definition session_cookies (cs : list (string * string)) : list (string * string) :=
  filter (λ i, i.1 = session_cookie) cs.

(** the status message of a result, if it is one *)
Definition message_of (r : Res pyval) : option string :=
  match r with
  | Ret (PyDict d) _ => d !! "message"
  | _ => None
  end.

(** *** What a call leaves alone *)

(** for a client without an auth type, [c] ends, however it ends, with the
    object's attributes as they were, and with the trace it started with
    under what it added *)
Definition keeps_self {A} (c : M A) : Prop :=
  ∀ s, Py.truthy (auth_type (self s)) = false →
       self (final (c s)) = self s
       ∧ ∃ evs, trace (final (c s)) = evs ++ trace s.

(** *** Start of the browser *)

Definition chrome_not_found : exn :=
  TypeError "expected str, bytes or os.PathLike object, not NoneType".

(** what [__init_browser] and then [__del__] log when Chrome cannot be
    found, newest first *)
Definition chrome_missing_log (virtual_display : bool) : list event :=
  if virtual_display
  then [DisplayStop; Debug "Closing display..."; Debug "Initializing browser...";
        DisplayStart; Debug "Starting virtual display..."]
  else [Debug "Initializing browser..."].

(** ** Sample pages and states *)

Module Sample.

Definition element (cls : option string) (t : string) : WebElement :=
  {| we_class := cls; we_text := t; we_innerHTML := t; we_clickable := true |}.

Fixpoint lookup_elements (els : list (locator * list WebElement))
    (loc : locator) : list WebElement :=
  match els with
  | [] => []
  | (l, es) :: rest => if decide (l = loc) then es else lookup_elements rest loc
  end.

(** a page showing [els], whose source is the text [src] *)
Definition page (src : string) (els : list (locator * list WebElement)) : Page :=
  {| elements := lookup_elements els; page_source := src;
     current_url := chatgpt_chat_url; performance_log := []; cookies := [];
     script_error := None |}.

(** the same page on which scripts fail with [e] *)
Definition failing (e : exn) (p : Page) : Page :=
  {| elements := elements p; page_source := page_source p;
     current_url := current_url p; performance_log := performance_log p;
     cookies := cookies p; script_error := Some e |}.

Definition blank : Page := page "{}" [].

(** the successive observations [ps], then [rest] for ever *)
Definition browser_of (ps : list Page) (rest : Page) : nat → Page :=
  λ n, default rest (ps !! n).

Definition machine : Host :=
  {| needs_virtual_display := false; display_error := None;
     chrome_error := None; ffmpeg_downloader := None; cookie_file := None;
     epoch := 0 |}.

(** a client built from [a], with one window open, about to make its
    first observation of [b] *)
Definition state (a : Args) (b : nat → Page) : State :=
  {| self := set_has_driver true (set_is_active true (self_of_args a));
     handles := [O]; current_window_handle := O; fresh_handle := 1%nat;
     host := machine; browser := b; tick := O; clock := 0; trace := [] |}.

Definition with_token : Args :=
  {| arg_session_token := Some "token"; arg_conversation_id := EmptyString;
     arg_auth_type := None; arg_email := None; arg_password := None;
     arg_login_cookies_path := EmptyString;
     arg_captcha_solver := Some "pypasser"; arg_solver_apikey := EmptyString;
     arg_proxy := None; arg_chrome_args := []; arg_moderation := true;
     arg_verbose := false |}.

(** the capacity banner is up *)
Definition busy : Page :=
  page "{}" [(chatgpt_capacity, [element None "ChatGPT is at capacity right now"])].

(** the banner is up for two polls, then gone *)
Definition busy_twice : State := state with_token (browser_of [busy; busy] blank).
Definition busy_for_ever : State := state with_token (λ _, busy).

(** the session endpoint's body, read as far as the gate looks at it *)
Definition json_loads (src : string) : option (gmap string string) :=
  if String.eqb src "{}" then Some ∅
  else if String.prefix "{" src then Some {["user" := "me"]}
  else None.

(** an identity provider that lets the user in *)
Definition Auth0_login : M unit := mret ().

Definition with_login : Args :=
  {| arg_session_token := None; arg_conversation_id := EmptyString;
     arg_auth_type := Some "google"; arg_email := Some "me@example.org";
     arg_password := Some "secret"; arg_login_cookies_path := EmptyString;
     arg_captcha_solver := Some "pypasser"; arg_solver_apikey := EmptyString;
     arg_proxy := None; arg_chrome_args := []; arg_moderation := true;
     arg_verbose := false |}.

Definition challenge : Page :=
  page "<html>" [(cf_challenge_form, [element None "Checking your browser"])].

Definition session : Page := page "{user}" [].

Definition login_pages : Page :=
  page "{}" [(chatgpt_login_btn, [element None "Log in"]);
             (chatgpt_login_h1, [element None "Welcome back"]);
             (chatgpt_logged_h1, [element None "ChatGPT"])].

(** the challenge never clears *)
Definition blocked : State := state with_token (λ _, challenge).
(** no challenge, and the endpoint answers [{}]: the token is rejected *)
Definition rejected : State := state with_token (λ _, blank).
(** no challenge, and a session *)
Definition signed_in : State := state with_token (λ _, session).
(** no challenge, no session, credentials given, and the login succeeds *)
Definition signing_in : State := state with_login (λ _, login_pages).

Definition markdownify (html : string) : string := html.

(** the chat page: the text box, the streaming marker while [streaming],
    and one response with the class [cls] and the text [t] *)
Definition chat (streaming : bool) (cls : option string) (t : string) : Page :=
  page "{user}"
    [(chatgpt_textbox, [element None EmptyString]);
     (chatgpt_streaming, if streaming then [element None t] else []);
     (chatgpt_big_response, [element cls t]);
     (chatgpt_small_response, [element None t])].

Definition thrice (p : Page) : list Page := [p; p; p].

(** a response seen as [He], [He] again, then [Hello] and complete *)
Definition typing : State :=
  state with_token
    (browser_of (thrice (chat true None "He") ++ thrice (chat true None "He")
                 ++ thrice (chat false None "Hello")) blank).

(** a complete response [Hi] *)
Definition answered : State := state with_token (λ _, chat false None "Hi").




(** a keeper whose first three deliveries fail *)
Definition keeper : State :=
  state with_token
    (browser_of (thrice (failing (WebDriverException "disconnected") blank)) blank).



(** in a conversation *)
Definition in_conversation : Args :=
  {| arg_session_token := Some "token"; arg_conversation_id := "abc";
     arg_auth_type := None; arg_email := None; arg_password := None;
     arg_login_cookies_path := EmptyString;
     arg_captcha_solver := Some "pypasser"; arg_solver_apikey := EmptyString;
     arg_proxy := None; arg_chrome_args := []; arg_moderation := true;
     arg_verbose := false |}.

(** the conversation page without its buttons *)
Definition no_buttons : State := state in_conversation (λ _, blank).


(** the delete button is there, the confirmation never shows *)
Definition trash : WebElement := element None EmptyString.


End Sample.


(** ** More sample pages and states *)

Module Scene.




(** a conversation of two prompts and two replies; the selector of the
    prompts finds the replies too *)
Definition transcript : Page :=
  Sample.page "{}"
    [(conversation_div, [Sample.element None EmptyString]);
     (reply_selector, [Sample.element None "A1"; Sample.element None "A2"]);
     (user_selector, [Sample.element None "Q1"; Sample.element None "A1";
                      Sample.element None "Q2"; Sample.element None "A2"])].

Definition reading : State := Sample.state Sample.in_conversation (λ _, transcript).

(** a performance log with the title request in third place *)
Definition title_request : string := gen_title_url +:+ "/" +:+ "0a1b2c3d".
Definition earlier_requests : list (option string) :=
  [None; Some "https://chat.openai.com/backend-api/conversation"].


(** the login page that never gets to the logged-in heading *)
Definition login_stuck : State :=
  Sample.state Sample.with_login
    (λ _, Sample.page "{}"
            [(chatgpt_login_btn, [Sample.element None "Log in"]);
             (chatgpt_login_h1, [Sample.element None "Welcome back"])]).

(** credentials and a cookie file *)
Definition with_cookie_path : Args :=
  {| arg_session_token := None; arg_conversation_id := EmptyString;
     arg_auth_type := Some "google"; arg_email := Some "me@example.org";
     arg_password := Some "secret"; arg_login_cookies_path := "cookies.json";
     arg_captcha_solver := Some "pypasser"; arg_solver_apikey := EmptyString;
     arg_proxy := None; arg_chrome_args := []; arg_moderation := true;
     arg_verbose := false |}.

(** the page [p], the browser holding the cookies [cs] *)
Definition holding (cs : list (string * string)) (p : Page) : Page :=
  {| elements := elements p; page_source := page_source p;
     current_url := current_url p; performance_log := performance_log p;
     cookies := cs; script_error := script_error p |}.

Definition jar : list (string * string) :=
  [("cf_clearance", "x"); (session_cookie, "fresh-token"); ("_puid", "y")].

Definition logging_in : State :=
  Sample.state with_cookie_path (λ _, holding jar Sample.login_pages).

Definition login_button : WebElement := Sample.element None "Log in".

(** an intro and two alerts in the way *)
Definition cluttered : State :=
  Sample.state Sample.with_token
    (λ _, Sample.page "{}"
            [(chatgpt_intro, [Sample.element None "intro"]);
             (chatgpt_alert, [Sample.element None "one"; Sample.element None "two"])]).

(** the conversation page with its two buttons *)
Definition confirm : WebElement := Sample.element None "Delete".
Definition deletable : State :=
  Sample.state Sample.in_conversation
    (λ _, Sample.page "{}" [(delete_button, [Sample.trash]);
                            (confirmation_button, [confirm])]).

(** a Linux host without display and without Chrome *)
Definition no_chrome : Host :=
  {| needs_virtual_display := true; display_error := None;
     chrome_error := Some chrome_not_found; ffmpeg_downloader := None;
     cookie_file := None; epoch := 0 |}.

(** a host with a cookie file that holds two session tokens *)
Definition with_cookie_file : Host :=
  {| needs_virtual_display := false; display_error := None;
     chrome_error := None; ffmpeg_downloader := None;
     cookie_file := Some (Some [(session_cookie, "old-token"); ("_puid", "y");
                                (session_cookie, "new-token")]);
     epoch := 0 |}.

(** a session token and a cookie path, no auth type *)
Definition with_token_and_path : Args :=
  {| arg_session_token := Some "token"; arg_conversation_id := EmptyString;
     arg_auth_type := None; arg_email := None; arg_password := None;
     arg_login_cookies_path := "cookies.json";
     arg_captcha_solver := Some "pypasser"; arg_solver_apikey := EmptyString;
     arg_proxy := None; arg_chrome_args := []; arg_moderation := true;
     arg_verbose := false |}.

(** the object as [__init__] hands it to [__init_browser], on the host [h] *)
Definition fresh (a : Args) (h : Host) (b : nat → Page) : State :=
  {| self := self_of_args a; handles := [O]; current_window_handle := O;
     fresh_handle := 1%nat; host := h; browser := b; tick := O; clock := 0;
     trace := [] |}.

End Scene.
(** ** Proofs *)

(** Running straight-line code: unfold the monad and the driver. *)
Ltac run :=
  cbv beta iota delta
      [mbind M_bind mret M_ret raise out_of_steps try_except get_state modify
       emit observe debug print sleep time_now
       driver_current_window_handle switch_to_new_window_tab driver_close
       switch_to_window driver_get save_screenshot click send_keys
       execute_cdp_cmd find_elements find_element execute_script
       driver_page_source driver_current_url get_log_performance get_cookies
       wait_until_present wait_until_absent wait_until_clickable
       last_item first_char
       with_self with_windows with_tick with_clock with_trace
       is_TimeoutException is_NoSuchElementException is_Exception];
  cbn [self handles current_window_handle fresh_handle host browser tick
       clock trace].

Lemma State_eq (s1 s2 : State) :
  self s1 = self s2 → handles s1 = handles s2 →
  current_window_handle s1 = current_window_handle s2 →
  fresh_handle s1 = fresh_handle s2 → host s1 = host s2 →
  browser s1 = browser s2 → tick s1 = tick s2 → clock s1 = clock s2 →
  trace s1 = trace s2 → s1 = s2.
Proof. destruct s1, s2; cbn; intros; subst; reflexivity. Qed.

Lemma push_push (a b : list event) (s : State) :
  push a (push b s) = push (a ++ b) s.
Proof.
  apply State_eq; try reflexivity.
  unfold push, stamp; cbn. rewrite fmap_app, app_assoc. reflexivity.
Qed.

Lemma advance_advance (a b : nat) (s : State) :
  advance a (advance b s) = advance (a + b) s.
Proof. apply State_eq; try reflexivity. cbn. lia. Qed.

Lemma push_advance (evs : list event) (n : nat) (s : State) :
  push evs (advance n s) = advance n (push evs s).
Proof. reflexivity. Qed.

Lemma push_advance_merge (a b : list event) (n m : nat) (s : State) :
  push a (advance n (push b (advance m s))) = push (a ++ b) (advance (n + m) s).
Proof.
  change (advance n (push b (advance m s)))
    with (push b (advance n (advance m s))).
  rewrite push_push, advance_advance. reflexivity.
Qed.

Lemma rounds_comm (k : nat) (evs : list event) :
  rounds k evs ++ evs = evs ++ rounds k evs.
Proof.
  induction k as [|k IH]; cbn.
  - rewrite app_nil_r. reflexivity.
  - rewrite <- app_assoc, IH. reflexivity.
Qed.

(** *** Capacity Waiter *)

Lemma check_capacity_found (fuel : nat) (url : string) (s : State) :
  at_capacity s 0 →
  check_capacity (S fuel) url s =
  check_capacity fuel url (push (capacity_round url) (advance 1 s)).
Proof.
  unfold at_capacity. cbn [Nat.add]. intros H. cbn [check_capacity]. run.
  destruct (elements (browser s (tick s)) chatgpt_capacity) as [|e es];
    [congruence|]. reflexivity.
Qed.

Lemma check_capacity_free (fuel : nat) (url : string) (s : State) :
  ¬ at_capacity s 0 →
  check_capacity (S fuel) url s = Ret () (push capacity_exit (advance 1 s)).
Proof.
  unfold at_capacity. cbn [Nat.add]. intros H. cbn [check_capacity]. run.
  destruct (elements (browser s (tick s)) chatgpt_capacity) as [|e es].
  - reflexivity.
  - exfalso. apply H. discriminate.
Qed.

Lemma at_capacity_shift (evs : list event) (s : State) (k : nat) :
  at_capacity (push evs (advance 1 s)) k ↔ at_capacity s (S k).
Proof.
  unfold at_capacity. cbn.
  replace (k + S (tick s))%nat with (S (k + tick s)) by lia. reflexivity.
Qed.

Lemma check_capacity_returns (url : string) (k : nat) :
  ∀ (s : State) (fuel : nat),
    (∀ j, (j < k)%nat → at_capacity s j) → ¬ at_capacity s k → (k < fuel)%nat →
    check_capacity fuel url s =
    Ret () (push (capacity_exit ++ rounds k (capacity_round url))
              (advance (S k) s)).
Proof.
  induction k as [|k IH]; intros s fuel Hbusy Hfree Hfuel;
    (destruct fuel as [|fuel]; [lia|]).
  - rewrite check_capacity_free by exact Hfree. cbn [rounds].
    rewrite app_nil_r. reflexivity.
  - rewrite check_capacity_found by (apply Hbusy; lia).
    rewrite (IH _ fuel).
    + rewrite push_advance_merge.
      replace (S k + 1)%nat with (S (S k)) by lia.
      rewrite <- app_assoc, rounds_comm. reflexivity.
    + intros j Hj. apply at_capacity_shift, Hbusy. lia.
    + rewrite at_capacity_shift. exact Hfree.
    + lia.
Qed.

Lemma check_capacity_loops (url : string) (fuel : nat) :
  ∀ s : State,
    (∀ j, at_capacity s j) →
    check_capacity fuel url s =
    Cut (push (rounds fuel (capacity_round url)) (advance fuel s)).
Proof.
  induction fuel as [|fuel IH]; intros s Hbusy.
  - cbn. f_equal. apply State_eq; reflexivity.
  - rewrite check_capacity_found by apply Hbusy.
    rewrite IH.
    + rewrite push_advance_merge.
      replace (fuel + 1)%nat with (S fuel) by lia.
      rewrite rounds_comm. reflexivity.
    + intros j. apply at_capacity_shift, Hbusy.
Qed.

(** C6. The Capacity Waiter returns at the first poll that finds no capacity
    banner, however many polls before it found one; each poll that finds
    the banner is followed by a navigation to the target ([capacity_round]);
    and there is no limit: while every poll finds the banner the loop is
    still running after any number of turns. *)
Theorem check_capacity_first_free_poll (url : string) (s : State) :
  (∀ k fuel : nat,
     (∀ j, (j < k)%nat → at_capacity s j) → ¬ at_capacity s k → (k < fuel)%nat →
     check_capacity fuel url s =
     Ret () (push (capacity_exit ++ rounds k (capacity_round url))
               (advance (S k) s)))
  ∧ ((∀ j, at_capacity s j) →
     ∀ fuel : nat,
       check_capacity fuel url s =
       Cut (push (rounds fuel (capacity_round url)) (advance fuel s))).
Proof.
  split.
  - intros k fuel. apply check_capacity_returns.
  - intros Hbusy fuel. apply check_capacity_loops, Hbusy.
Qed.

Lemma check_capacity_first_free_poll_witness :
  check_capacity 5 "u" Sample.busy_twice =
    Ret () (push (capacity_exit ++ rounds 2 (capacity_round "u"))
              (advance 3 Sample.busy_twice))
  ∧ ∀ fuel : nat,
      check_capacity fuel "u" Sample.busy_for_ever =
      Cut (push (rounds fuel (capacity_round "u")) (advance fuel Sample.busy_for_ever)).
Proof.
  split.
  - apply (proj1 (check_capacity_first_free_poll "u" Sample.busy_twice) 2%nat 5%nat).
    + intros j Hj. destruct j as [|[|j]]; [vm_compute; discriminate..|lia].
    + vm_compute. intros H. apply H. reflexivity.
    + lia.
  - apply (proj2 (check_capacity_first_free_poll "u" Sample.busy_for_ever)).
    intros j. vm_compute. discriminate.
Defined.

(** *** Challenge Gate *)

Section Gate.

Variable json_loads : string → option (gmap string string).
Variable Auth0_login : M unit.

Lemma ensure_cf_retry (fuel : nat) (retry : Z) (s : State) :
  challenge_present s 0 → 0 < retry →
  ensure_cf json_loads Auth0_login (S fuel) retry s =
  ensure_cf json_loads Auth0_login fuel (retry - 1) (failed_attempt retry s).
Proof.
  unfold challenge_present. cbn [Nat.add]. intros H Hr.
  cbn [ensure_cf]. run.
  destruct (elements (browser s (tick s)) cf_challenge_form) as [|e es];
    [congruence|].
  assert ((retry >? 0) = true) as -> by lia.
  reflexivity.
Qed.

Lemma ensure_cf_exhausted (fuel : nat) (retry : Z) (s : State) :
  challenge_present s 0 → retry ≤ 0 →
  ensure_cf json_loads Auth0_login (S fuel) retry s =
  Exc (ValueError "Cloudflare challenge failed") (last_attempt retry s).
Proof.
  unfold challenge_present. cbn [Nat.add]. intros H Hr.
  cbn [ensure_cf]. run.
  destruct (elements (browser s (tick s)) cf_challenge_form) as [|e es];
    [congruence|].
  assert ((retry >? 0) = false) as -> by lia.
  reflexivity.
Qed.

Lemma ensure_cf_passed (fuel : nat) (retry : Z) (s : State) :
  ¬ challenge_present s 0 →
  ensure_cf json_loads Auth0_login (S fuel) retry s =
  validate_authorization json_loads Auth0_login fuel
    (current_window_handle s) (passed_attempt s).
Proof.
  unfold challenge_present. cbn [Nat.add]. intros H.
  cbn [ensure_cf]. run.
  destruct (elements (browser s (tick s)) cf_challenge_form) as [|e es].
  - reflexivity.
  - exfalso. apply H. discriminate.
Qed.

Lemma challenge_present_shift (retry : Z) (s : State) (k : nat) :
  challenge_present (failed_attempt retry s) k ↔ challenge_present s (S k).
Proof.
  unfold challenge_present. cbn.
  replace (k + S (tick s))%nat with (S (k + tick s)) by lia. reflexivity.
Qed.

Lemma ensure_cf_gives_up (n : nat) :
  ∀ (s : State) (fuel : nat),
    (∀ k, (k ≤ n)%nat → challenge_present s k) → (n < fuel)%nat →
    ∃ s', ensure_cf json_loads Auth0_login fuel (Z.of_nat n) s =
          Exc (ValueError "Cloudflare challenge failed") s'
      ∧ challenge_attempts (trace s') = (challenge_attempts (trace s) + n + 1)%nat
      ∧ tick s' = (tick s + n + 1)%nat.
Proof.
  induction n as [|n IH]; intros s fuel Hpresent Hfuel;
    (destruct fuel as [|fuel]; [lia|]).
  - rewrite ensure_cf_exhausted by (try apply Hpresent; lia).
    eexists. split; [reflexivity|]. cbn. rewrite decide_True by reflexivity.
    split; lia.
  - rewrite ensure_cf_retry by (try apply Hpresent; lia).
    replace (Z.of_nat (S n) - 1) with (Z.of_nat n) by lia.
    destruct (IH (failed_attempt (Z.of_nat (S n)) s) fuel) as (s' & -> & Ha & Ht).
    + intros k Hk. apply challenge_present_shift, Hpresent. lia.
    + lia.
    + exists s'. split; [reflexivity|]. rewrite Ha, Ht. cbn.
      rewrite decide_True by reflexivity. split; lia.
Qed.

(** C2. With a retry budget [N >= 0] and a challenge form that never goes
    away, the Challenge Gate makes exactly [N + 1] attempts and then fails
    with "Cloudflare challenge failed"; and when the form is absent at the
    first attempt, it goes on to validate the session after that one
    attempt, without retrying. *)
Theorem ensure_cf_attempts (N : Z) (s : State) :
  0 ≤ N →
  (∀ fuel : nat,
     (∀ k, (k ≤ Z.to_nat N)%nat → challenge_present s k) →
     (Z.to_nat N < fuel)%nat →
     ∃ s', ensure_cf json_loads Auth0_login fuel N s =
           Exc (ValueError "Cloudflare challenge failed") s'
       ∧ challenge_attempts (trace s') =
         (challenge_attempts (trace s) + Z.to_nat N + 1)%nat)
  ∧ (∀ fuel : nat,
       ¬ challenge_present s 0 →
       ensure_cf json_loads Auth0_login (S fuel) N s =
       validate_authorization json_loads Auth0_login fuel
         (current_window_handle s) (passed_attempt s)
       ∧ challenge_attempts (trace (passed_attempt s)) =
         (challenge_attempts (trace s) + 1)%nat).
Proof.
  intros HN. split.
  - intros fuel Hpresent Hfuel.
    destruct (ensure_cf_gives_up (Z.to_nat N) s fuel Hpresent Hfuel)
      as (s' & Hrun & Ha & _).
    rewrite Z2Nat.id in Hrun by exact HN. eauto.
  - intros fuel Habsent. split.
    + apply ensure_cf_passed, Habsent.
    + cbn. rewrite decide_True by reflexivity. lia.
Qed.

End Gate.

Lemma ensure_cf_attempts_witness :
  (∃ s', ensure_cf Sample.json_loads Sample.Auth0_login 5 1 Sample.blocked =
         Exc (ValueError "Cloudflare challenge failed") s'
     ∧ challenge_attempts (trace s') =
       (challenge_attempts (trace Sample.blocked) + Z.to_nat 1 + 1)%nat)
  ∧ (ensure_cf Sample.json_loads Sample.Auth0_login 5 1 Sample.signed_in =
     validate_authorization Sample.json_loads Sample.Auth0_login 4
       (current_window_handle Sample.signed_in) (passed_attempt Sample.signed_in)
     ∧ challenge_attempts (trace (passed_attempt Sample.signed_in)) =
       (challenge_attempts (trace Sample.signed_in) + 1)%nat).
Proof.
  split.
  - apply (proj1 (ensure_cf_attempts Sample.json_loads Sample.Auth0_login 1
                    Sample.blocked ltac:(lia)) 5%nat).
    + intros k _. vm_compute. discriminate.
    + vm_compute. lia.
  - apply (proj2 (ensure_cf_attempts Sample.json_loads Sample.Auth0_login 1
                    Sample.signed_in ltac:(lia)) 4%nat).
    vm_compute. intros H. apply H. reflexivity.
Defined.

(** C3. The Challenge Gate does not restore the browsing context on the
    paths that raise.  With the window [0] current at the call: when the
    challenge never clears and the retries are used up, the call raises
    with the last extra tab still open and current; when the session is
    rejected and no login is configured, likewise.  The paths that return
    (a valid session; a session obtained by logging in) and the retry
    path close the tab and switch back to window [0]. *)
Theorem ensure_cf_raises_in_the_extra_tab :
  current_window_handle Sample.blocked = O
  ∧ (∃ s', ensure_cf Sample.json_loads Sample.Auth0_login 5 1 Sample.blocked =
           Exc (ValueError "Cloudflare challenge failed") s'
       ∧ handles s' = [0; 2]%nat ∧ current_window_handle s' = 2%nat)
  ∧ (∃ s', ensure_cf Sample.json_loads Sample.Auth0_login 5 3 Sample.rejected =
           Exc (ValueError "Invalid session token") s'
       ∧ handles s' = [0; 1]%nat ∧ current_window_handle s' = 1%nat)
  ∧ (∃ s', ensure_cf Sample.json_loads Sample.Auth0_login 5 3 Sample.signed_in =
           Ret () s'
       ∧ handles s' = [0]%nat ∧ current_window_handle s' = 0%nat)
  ∧ (∃ s', ensure_cf Sample.json_loads Sample.Auth0_login 5 3 Sample.signing_in =
           Ret () s'
       ∧ handles s' = [0]%nat ∧ current_window_handle s' = 0%nat).
Proof.
  split; [reflexivity|].
  repeat split; eexists; (split; [vm_compute; reflexivity|]);
    split; reflexivity.
Qed.

(** *** Response Watcher *)

Lemma prefix_slice (p c : string) :
  String.prefix p c = true → p +:+ Py.slice_from (String.length p) c = c.
Proof.
  revert c. induction p as [|a p IH]; intros c H; [reflexivity|].
  destruct c as [|b c]; [discriminate|]. cbn in H |- *.
  destruct (Ascii.ascii_dec a b) as [->|]; [|discriminate].
  unfold String.app. cbn. f_equal. apply IH, H.
Qed.

Lemma slice_app (p x : string) : Py.slice_from (String.length p) (p +:+ x) = x.
Proof. induction p as [|a p IH]; [destruct x; reflexivity|exact IH]. Qed.

Lemma app_empty_r (s : string) : s +:+ EmptyString = s.
Proof. induction s as [|a s IH]; [reflexivity|]. unfold String.app in *. cbn. f_equal. exact IH. Qed.

Lemma app_assoc_string (a b c : string) : (a +:+ b) +:+ c = a +:+ (b +:+ c).
Proof. induction a as [|x a IH]; [reflexivity|]. unfold String.app in *. cbn. f_equal. exact IH. Qed.

Lemma default_last_cons {A} (d c : A) (l : list A) :
  default d (last (c :: l)) = default c (last l).
Proof.
  revert d c. induction l as [|x l IH]; intros d c; [reflexivity|].
  change (last (c :: x :: l)) with (last (x :: l)).
  rewrite (IH d x), (IH c x). reflexivity.
Qed.

(** The fragments of a growing sequence add up to its last text, beyond
    what had been seen before. *)
Lemma join_fragments (texts : list string) :
  ∀ prev, growing prev texts →
    prev +:+ join (fragments prev texts) = default prev (last texts).
Proof.
  induction texts as [|c rest IH]; intros prev Hg.
  - apply app_empty_r.
  - destruct Hg as [Hp Hg]. cbn [fragments].
    destruct (String.eqb_spec c prev) as [->|Hne].
    + rewrite IH by exact Hg. symmetry. apply default_last_cons.
    + cbn [join foldr]. fold (join (fragments c rest)).
      rewrite <- app_assoc_string, prefix_slice by exact Hp.
      rewrite IH by exact Hg. symmetry. apply default_last_cons.
Qed.

Lemma fragments_app (l1 l2 : list string) :
  ∀ prev, fragments prev (l1 ++ l2) =
          fragments prev l1 ++ fragments (default prev (last l1)) l2.
Proof.
  induction l1 as [|c l1 IH]; intros prev; [reflexivity|].
  cbn [app fragments]. destruct (String.eqb c prev) eqn:E.
  - apply String.eqb_eq in E as ->. rewrite IH, default_last_cons. reflexivity.
  - rewrite IH, default_last_cons. reflexivity.
Qed.

(** A text seen twice in a row adds no fragment. *)
Lemma fragments_repeat (front back : list string) (a prev : string) :
  fragments prev (front ++ a :: a :: back) = fragments prev (front ++ a :: back).
Proof.
  rewrite !fragments_app. f_equal. cbn [fragments].
  destruct (String.eqb a (default prev (last front))) eqn:E; [reflexivity|].
  rewrite String.eqb_refl. reflexivity.
Qed.

Lemma raise_if_error_passes (responses : list WebElement) (s : State) :
  no_error responses → raise_if_error responses s = Ret () s.
Proof.
  unfold no_error, raise_if_error, error_styled. intros H.
  destruct (last responses) as [e|]; [|reflexivity].
  rewrite (H e eq_refl). reflexivity.
Qed.


Lemma print_sleep_quiet : quiet (λ i, print i;; sleep 100).
Proof. intros f s. eexists. split; [reflexivity|]. repeat split. Qed.

Lemma return_quiet : quiet (λ _, mret ()).
Proof. intros f s. eexists. split; [reflexivity|]. repeat split. Qed.

Section Watcher.

Variable body : string → M unit.
Hypothesis body_quiet : quiet body.

(** One turn of the loop that meets no error. *)
Lemma stream_message_turn (fuel : nat) (prev : string) (s : State) (r : WebElement) :
  no_error (poll_responses s 0) →
  last (elements (browser s (2 + tick s)) chatgpt_small_response) = Some r →
  stream_message (S fuel) prev body s =
  if String.eqb (we_text r) prev
  then
    match poll_streaming s 0 with
    | [] => Ret () (advance 3 s)
    | _ :: _ => stream_message fuel prev body (advance 3 s)
    end
  else
    let fragment := Py.slice_from (String.length prev) (we_text r) in
    match body fragment (push [Yield fragment] (advance 3 s)) with
    | Ret _ s2 =>
        match poll_streaming s 0 with
        | [] => Ret () s2
        | _ :: _ => stream_message fuel (we_text r) body s2
        end
    | Exc e s2 => Exc e s2
    | Cut s2 => Cut s2
    end.
Proof.
  unfold poll_responses, poll_streaming. cbn [Nat.mul Nat.add]. intros Hok Hr.
  cbn [stream_message]. run.
  rewrite raise_if_error_passes by exact Hok. run.
  rewrite Hr. unfold push, advance, stamp. run. cbn [fmap list_fmap app Nat.add].
  destruct (String.eqb (we_text r) prev); cbn [negb].
  - destruct (elements (browser s (tick s)) chatgpt_streaming); reflexivity.
  - destruct (body _ _); [|reflexivity..].
    destruct (elements (browser s (tick s)) chatgpt_streaming); reflexivity.
Qed.


Lemma poll_at (s s' : State) (k i : nat) :
  browser s' = browser s → tick s' = (3 * k + tick s)%nat →
  poll_streaming s' i = poll_streaming s (k + i)
  ∧ poll_responses s' i = poll_responses s (k + i)
  ∧ poll_text s' i = poll_text s (k + i).
Proof.
  intros Hb Ht. unfold poll_streaming, poll_responses, poll_text.
  rewrite Hb, Ht.
  replace (3 * i + (3 * k + tick s))%nat with (3 * (k + i) + tick s)%nat by lia.
  replace (3 * i + 1 + (3 * k + tick s))%nat
    with (3 * (k + i) + 1 + tick s)%nat by lia.
  replace (3 * i + 2 + (3 * k + tick s))%nat
    with (3 * (k + i) + 2 + tick s)%nat by lia.
  repeat split.
Qed.

(** One turn that meets no error and reads the text [c]. *)
Lemma stream_message_one_turn (prev c : string) (s : State) :
  no_error (poll_responses s 0) → poll_text s 0 = Some c →
  ∃ s1, browser s1 = browser s ∧ tick s1 = (3 + tick s)%nat
    ∧ yields (trace s1) = yields (trace s) ++ fragments prev [c]
    ∧ ∀ fuel, stream_message (S fuel) prev body s =
              match poll_streaming s 0 with
              | [] => Ret () s1
              | _ :: _ => stream_message fuel c body s1
              end.
Proof.
  intros Hok Htext. unfold poll_text in Htext. cbn in Htext.
  destruct (last (elements (browser s (S (S (tick s)))) chatgpt_small_response))
    as [r|] eqn:Hr; [|discriminate].
  cbn in Htext. injection Htext as <-. cbn [fragments].
  destruct (String.eqb (we_text r) prev) eqn:E.
  - exists (advance 3 s). split; [reflexivity|]. split; [reflexivity|]. split.
    { cbn. rewrite app_nil_r. reflexivity. }
    intros fuel. rewrite (stream_message_turn _ _ _ r) by assumption.
    rewrite E. apply String.eqb_eq in E as ->. reflexivity.
  - destruct (body_quiet (Py.slice_from (String.length prev) (we_text r))
                (push [Yield (Py.slice_from (String.length prev) (we_text r))]
                   (advance 3 s)))
      as (s2 & Hbody & Hb & Ht & Hy).
    exists s2. split; [exact Hb|]. split; [exact Ht|]. split; [exact Hy|].
    intros fuel. rewrite (stream_message_turn _ _ _ r) by assumption.
    rewrite E. cbv zeta. rewrite Hbody. reflexivity.
Qed.

(** [k] turns that meet no error and find the marker: the loop goes on,
    having yielded the fragments of the texts seen. *)
Lemma stream_message_continues (texts : list string) :
  ∀ (prev : string) (s : State),
    (∀ i, (i < length texts)%nat →
       no_error (poll_responses s i) ∧ poll_text s i = texts !! i
       ∧ poll_streaming s i ≠ []) →
    ∃ s', (∀ fuel, stream_message (length texts + fuel) prev body s =
                   stream_message fuel (default prev (last texts)) body s')
      ∧ browser s' = browser s
      ∧ tick s' = (3 * length texts + tick s)%nat
      ∧ yields (trace s') = yields (trace s) ++ fragments prev texts.
Proof.
  induction texts as [|c rest IH]; intros prev s H.
  - exists s. cbn. rewrite app_nil_r. repeat split.
  - destruct (H O ltac:(cbn; lia)) as (Hok & Htext & Hmark).
    destruct (stream_message_one_turn prev c s Hok Htext)
      as (s1 & Hb & Ht & Hy & Hrun).
    destruct (IH c s1) as (s' & Hrun' & Hb' & Ht' & Hy').
    { intros i Hi. destruct (poll_at s s1 1 i Hb Ht) as (-> & -> & ->).
      apply (H (S i)). cbn. lia. }
    exists s'. split; [|split; [|split]].
    + intros fuel. cbn [length Nat.add]. rewrite Hrun.
      destruct (poll_streaming s 0); [congruence|].
      rewrite Hrun', default_last_cons. reflexivity.
    + congruence.
    + rewrite Ht', Ht. cbn [length]. lia.
    + rewrite Hy', Hy, <- app_assoc.
      change (c :: rest) with ([c] ++ rest).
      rewrite fragments_app. reflexivity.
Qed.

(** The watcher started with the watermark [prev]: it stops at the first
    turn that finds no marker, having yielded the fragments of the texts
    it read. *)
Lemma stream_message_stops (texts : list string) (final prev : string)
    (s : State) (fuel : nat) :
  last texts = Some final →
  (∀ i, (i < length texts)%nat →
     no_error (poll_responses s i) ∧ poll_text s i = texts !! i) →
  (∀ i, (S i < length texts)%nat → poll_streaming s i ≠ []) →
  poll_streaming s (length texts - 1) = [] →
  (length texts ≤ fuel)%nat →
  ∃ s', stream_message fuel prev body s = Ret () s'
    ∧ yields (trace s') = yields (trace s) ++ fragments prev texts.
Proof.
  intros Hlast Hpolls Hmark Hstop Hfuel.
  apply last_Some in Hlast as [front ->].
  rewrite length_app in *. cbn [length] in *.
  replace (length front + 1 - 1)%nat with (length front) in Hstop by lia.
  destruct (stream_message_continues front prev s) as (sk & Hrun & Hb & Ht & Hy).
  { intros i Hi. destruct (Hpolls i ltac:(lia)) as [Hok Htext].
    rewrite lookup_app_l in Htext by exact Hi.
    repeat split; [exact Hok|exact Htext|apply Hmark; lia]. }
  destruct (Hpolls (length front) ltac:(lia)) as [Hok Htext].
  rewrite list_lookup_middle in Htext by reflexivity.
  destruct (poll_at s sk (length front) 0 Hb Ht) as (Hs1 & Hs2 & Hs3).
  rewrite Nat.add_0_r in Hs1, Hs2, Hs3.
  rewrite <- Hs2 in Hok. rewrite <- Hs3 in Htext. rewrite <- Hs1 in Hstop.
  destruct (stream_message_one_turn (default prev (last front)) final sk Hok Htext)
    as (s' & _ & _ & Hy' & Hlastturn).
  exists s'. split.
  - replace fuel with (length front + S (fuel - length front - 1))%nat by lia.
    rewrite Hrun, Hlastturn, Hstop. reflexivity.
  - rewrite Hy', Hy, <- app_assoc, fragments_app. reflexivity.
Qed.

(** C1 (amended). Over polled texts that grow by prefix extension and
    carry no error style, the fragments the Response Watcher yields
    concatenate exactly to the final text: its watermark starts empty, so
    the text of the first poll is itself yielded.  A poll whose text
    equals the text seen before yields no fragment: the fragments are
    those of the sequence without the repeated text. *)
Theorem stream_message_fragments (texts : list string) (final : string)
    (s : State) (fuel : nat) :
  last texts = Some final →
  (∀ i, (i < length texts)%nat →
     no_error (poll_responses s i) ∧ poll_text s i = texts !! i) →
  (∀ i, (S i < length texts)%nat → poll_streaming s i ≠ []) →
  poll_streaming s (length texts - 1) = [] →
  growing EmptyString texts →
  (length texts ≤ fuel)%nat →
  (∃ s', stream_message fuel EmptyString body s = Ret () s'
     ∧ yields (trace s') = yields (trace s) ++ fragments EmptyString texts)
  ∧ join (fragments EmptyString texts) = final
  ∧ (∀ front a back,
       texts = front ++ a :: a :: back →
       fragments EmptyString texts = fragments EmptyString (front ++ a :: back)).
Proof.
  intros Hlast Hpolls Hmark Hstop Hgrow Hfuel. split; [|split].
  - eapply stream_message_stops; eassumption.
  - pose proof (join_fragments texts EmptyString Hgrow) as H.
    rewrite Hlast in H. exact H.
  - intros front a back ->. apply fragments_repeat.
Qed.


End Watcher.

Section Sending.

Variable markdownify : string → string.
Variable json_loads : string → option (gmap string string).
Variable Auth0_login : M unit.



(** C4. With [stream=True] the send, when it returns, returns the empty
    dictionary: neither the response text nor the conversation id is in
    it. *)
Theorem send_message_stream_returns_empty (fuel : nat) (message : string)
    (s s' : State) (v : pyval) :
  send_message markdownify json_loads Auth0_login fuel message true s = Ret v s' →
  v = PyDict ∅.
Proof.
  unfold send_message. intros H.
  change ((submit_message json_loads Auth0_login fuel message
             ≫= λ _, stream_message fuel EmptyString (λ i, print i;; sleep 100)
                    ≫= λ _, mret (PyDict ∅)) s)
    with (match submit_message json_loads Auth0_login fuel message s with
          | Ret _ s' =>
              match stream_message fuel EmptyString (λ i, print i;; sleep 100) s' with
              | Ret _ s'' => Ret (PyDict ∅) s''
              | Exc x s'' => Exc x s''
              | Cut s'' => Cut s''
              end
          | Exc x s' => Exc x s'
          | Cut s' => Cut s'
          end) in H.
  destruct (submit_message _ _ _ _ s); [|discriminate..].
  destruct (stream_message _ _ _ _); [|discriminate..].
  injection H as <- _. reflexivity.
Qed.

(** Without streaming the send, when it returns, returns a dictionary with
    the keys [message] and [conversation_id]. *)
Lemma send_message_returns_both_keys (fuel : nat) (message : string)
    (s s' : State) (v : pyval) :
  send_message markdownify json_loads Auth0_login fuel message false s = Ret v s' →
  ∃ content conversation_id : string,
    v = PyDict (<["message" := content]>
                  (<["conversation_id" := conversation_id]> ∅)).
Proof.
  unfold send_message. intros H.
  change ((submit_message json_loads Auth0_login fuel message
             ≫= λ _, read_response markdownify) s)
    with (match submit_message json_loads Auth0_login fuel message s with
          | Ret _ s' => read_response markdownify s'
          | Exc x s' => Exc x s'
          | Cut s' => Cut s'
          end) in H.
  destruct (submit_message _ _ _ _ s) as [[] s1| |]; [|discriminate..].
  revert H. unfold read_response. run.
  destruct (elements (browser s1 (tick s1)) chatgpt_streaming); [|discriminate].
  run. unfold raise_if_error.
  destruct (last (elements (browser s1 (S (tick s1))) chatgpt_big_response)) as [r|].
  - destruct (Py.contains "text-red" (Py.str_opt (we_class r))); [discriminate|].
    run. destruct (Py.truthy_str (conversation_id (self s1))); cbn [negb]; run;
      intros H; injection H as <- _; eauto.
  - run. destruct (Py.truthy_str (conversation_id (self s1))); cbn [negb]; run;
      intros H; injection H as <- _; eauto.
Qed.

End Sending.

Lemma stream_message_fragments_witness :
  (∃ s', stream_message 5 EmptyString (λ i, print i;; sleep 100) Sample.typing =
         Ret () s'
     ∧ yields (trace s') =
       yields (trace Sample.typing) ++ fragments EmptyString ["He"; "He"; "Hello"])
  ∧ join (fragments EmptyString ["He"; "He"; "Hello"]) = "Hello"
  ∧ (∀ front a back,
       ["He"; "He"; "Hello"] = front ++ a :: a :: back →
       fragments EmptyString ["He"; "He"; "Hello"] =
       fragments EmptyString (front ++ a :: back)).
Proof.
  apply (stream_message_fragments _ print_sleep_quiet ["He"; "He"; "Hello"]
           "Hello" Sample.typing 5%nat).
  - reflexivity.
  - intros i Hi. destruct i as [|[|[|i]]]; [| | |cbn in Hi; lia];
      (split; [intros e H; vm_compute in H; injection H as <-; reflexivity
              |vm_compute; reflexivity]).
  - intros i Hi. destruct i as [|[|i]]; [| |cbn in Hi; lia];
      vm_compute; discriminate.
  - vm_compute. reflexivity.
  - vm_compute. repeat split.
  - vm_compute. lia.
Defined.

(** C1 as stated fails where the first polled text is not empty: for the
    single poll [Hi] the final text minus the initial text is empty, and
    the watcher yields [Hi]. *)
Lemma stream_message_yields_first_text :
  poll_text Sample.answered 0 = Some "Hi"
  ∧ poll_streaming Sample.answered 0 = []
  ∧ ∃ s', stream_message 1 EmptyString (λ _, mret ()) Sample.answered = Ret () s'
      ∧ yields (trace s') = ["Hi"]
      ∧ join ["Hi"] ≠ Py.slice_from (String.length "Hi") "Hi".
Proof.
  split; [reflexivity|]. split; [reflexivity|].
  eexists. split; [vm_compute; reflexivity|]. split; [reflexivity|].
  vm_compute. discriminate.
Qed.


Lemma send_message_stream_returns_empty_witness :
  ∃ v s',
    send_message Sample.markdownify Sample.json_loads Sample.Auth0_login 5
      "hello" true Sample.answered = Ret v s'
    ∧ v = PyDict ∅.
Proof.
  eexists _, _. split; [vm_compute; reflexivity|].
  eapply (send_message_stream_returns_empty Sample.markdownify
            Sample.json_loads Sample.Auth0_login 5 "hello" Sample.answered).
  vm_compute. reflexivity.
Defined.

(** *** Session Keeper *)

Lemma keep_alive_body_run (s : State) : keep_alive_body s = Ret () (kept_alive s).
Proof.
  unfold keep_alive_body, kept_alive, delivery_log. run.
  destruct (script_error (browser s (tick s))) as [e|]; reflexivity.
Qed.

Lemma del_run (s : State) : del s = Ret () (torn_down s).
Proof.
  unfold del, torn_down. run. cbn [has_driver has_display set_is_active].
  destruct (has_driver (self s)), (has_display (self s)); reflexivity.
Qed.

Lemma signal_times_kept_alive (s : State) :
  signal_times (trace (kept_alive s)) = signal_times (trace s) ++ [clock s].
Proof.
  unfold kept_alive, delivery_log.
  destruct (script_error (browser s (tick s))); reflexivity.
Qed.

Lemma signal_times_torn_down (s : State) :
  signal_times (trace (torn_down s)) = signal_times (trace s).
Proof.
  unfold torn_down.
  destruct (has_driver (self s)), (has_display (self s)); reflexivity.
Qed.

Lemma turns_spec (n : nat) :
  ∀ s, self (turns n s) = self s
       ∧ signal_times (trace (turns n s)) =
         signal_times (trace s) ++ every_minute (clock s) n.
Proof.
  induction n as [|n IH]; intros s; cbn [turns every_minute].
  - rewrite app_nil_r. split; reflexivity.
  - destruct (IH (kept_alive s)) as [-> ->]. split; [reflexivity|].
    rewrite signal_times_kept_alive, <- app_assoc. reflexivity.
Qed.

Lemma every_minute_lookup (n : nat) :
  ∀ (start : Z) (j : nat),
    (j < n)%nat → every_minute start n !! j = Some (start + 60000 * Z.of_nat j).
Proof.
  induction n as [|n IH]; intros start j Hj; [lia|].
  destruct j as [|j]; cbn.
  - f_equal. lia.
  - rewrite IH by lia. f_equal. lia.
Qed.

Section Keeper.

Variable teardown : nat → bool.

Lemma keep_alive_turn (fuel k : nat) (s : State) :
  teardown k = false → is_active (self s) = true →
  keep_alive (S fuel) teardown k s = keep_alive fuel teardown (S k) (kept_alive s).
Proof.
  intros Hk Hs. cbn [keep_alive]. rewrite Hk. run. rewrite Hs.
  rewrite keep_alive_body_run. reflexivity.
Qed.

Lemma keep_alive_torn_down (fuel k : nat) (s : State) :
  teardown k = true →
  keep_alive (S fuel) teardown k s = Ret () (torn_down s).
Proof.
  intros Hk. cbn [keep_alive]. rewrite Hk.
  change ((del ≫= λ _, get_state ≫= λ s0,
             if is_active (self s0)
             then keep_alive_body ≫= λ _, keep_alive fuel teardown (S k)
             else mret ()) s)
    with (match del s with
          | Ret _ s' =>
              (get_state ≫= λ s0,
                 if is_active (self s0)
                 then keep_alive_body ≫= λ _, keep_alive fuel teardown (S k)
                 else mret ()) s'
          | Exc e s' => Exc e s'
          | Cut s' => Cut s'
          end).
  rewrite del_run. reflexivity.
Qed.

Lemma keep_alive_idle (fuel k : nat) (s : State) :
  teardown k = false → is_active (self s) = false →
  keep_alive (S fuel) teardown k s = Ret () s.
Proof.
  intros Hk Hs. cbn [keep_alive]. rewrite Hk. run. rewrite Hs. reflexivity.
Qed.

Lemma keep_alive_runs (n : nat) :
  ∀ (k fuel : nat) (s : State),
    is_active (self s) = true →
    (∀ j, (j < n)%nat → teardown (k + j) = false) →
    keep_alive (n + fuel) teardown k s =
    keep_alive fuel teardown (k + n) (turns n s).
Proof.
  induction n as [|n IH]; intros k fuel s Hs Hup.
  - rewrite Nat.add_0_r. reflexivity.
  - cbn [Nat.add turns]. rewrite keep_alive_turn.
    + rewrite IH.
      * f_equal. lia.
      * exact Hs.
      * intros j Hj. replace (S k + j)%nat with (k + S j)%nat by lia.
        apply Hup. lia.
    + rewrite <- (Nat.add_0_r k). apply Hup. lia.
    + exact Hs.
Qed.

Lemma keep_alive_never_raises (fuel : nat) :
  ∀ (k : nat) (s : State) (e : exn) (s' : State),
    keep_alive fuel teardown k s ≠ Exc e s'.
Proof.
  induction fuel as [|fuel IH]; intros k s e s'; [discriminate|].
  destruct (teardown k) eqn:Hk.
  - rewrite keep_alive_torn_down by exact Hk. discriminate.
  - destruct (is_active (self s)) eqn:Hs.
    + rewrite keep_alive_turn by assumption. apply IH.
    + rewrite keep_alive_idle by assumption. discriminate.
Qed.

Lemma keep_alive_returns_cleared (fuel : nat) :
  ∀ (k : nat) (s s' : State),
    keep_alive fuel teardown k s = Ret () s' → is_active (self s') = false.
Proof.
  induction fuel as [|fuel IH]; intros k s s'; [discriminate|].
  destruct (teardown k) eqn:Hk.
  - rewrite keep_alive_torn_down by exact Hk. intros [= <-]. reflexivity.
  - destruct (is_active (self s)) eqn:Hs.
    + rewrite keep_alive_turn by assumption. apply IH.
    + rewrite keep_alive_idle by assumption. intros [= <-]. exact Hs.
Qed.

(** C7. The Session Keeper, started with the flag set when the clock shows
    [c], sends the liveness signal at [c], [c + 60 s], [c + 120 s], ...:
    one signal each turn, for as long as the flag stays set (the clock is
    the one [time.sleep] advances).  It ends at the first test of the flag
    after the owner has cleared it, and not before: when it returns the
    flag is cleared, and while the owner never clears it the loop is still
    running after any number of turns.  A delivery that fails is logged
    inside the turn ([delivery_log]); the turn returns all the same, so no
    exception ever leaves the loop and the signals after a failed one are
    sent as scheduled. *)
Theorem keep_alive_signals (s : State) :
  is_active (self s) = true →
  (∀ n fuel : nat,
     (∀ j, (j < n)%nat → teardown j = false) → teardown n = true →
     (n < fuel)%nat →
     ∃ s', keep_alive fuel teardown 0 s = Ret () s'
       ∧ signal_times (trace s') =
         signal_times (trace s) ++ every_minute (clock s) n
       ∧ (∀ j, (j < n)%nat →
            every_minute (clock s) n !! j = Some (clock s + 60000 * Z.of_nat j))
       ∧ is_active (self s') = false)
  ∧ ((∀ j, teardown j = false) →
     ∀ fuel : nat,
       ∃ s', keep_alive fuel teardown 0 s = Cut s'
         ∧ signal_times (trace s') =
           signal_times (trace s) ++ every_minute (clock s) fuel)
  ∧ (∀ (fuel k : nat) (s0 : State) (e : exn) (s' : State),
       keep_alive fuel teardown k s0 ≠ Exc e s')
  ∧ (∀ (fuel k : nat) (s0 s' : State),
       keep_alive fuel teardown k s0 = Ret () s' → is_active (self s') = false)
  ∧ (∀ s0 : State, keep_alive_body s0 = Ret () (kept_alive s0)).
Proof.
  intros Hs. split; [|split; [|split; [|split]]].
  - intros n fuel Hup Hdown Hfuel.
    exists (torn_down (turns n s)).
    destruct (turns_spec n s) as [Hself Hsig].
    split; [|split; [|split]].
    + replace fuel with (n + S (fuel - n - 1))%nat by lia.
      rewrite keep_alive_runs by assumption.
      apply keep_alive_torn_down. exact Hdown.
    + rewrite signal_times_torn_down. exact Hsig.
    + intros j Hj. apply every_minute_lookup, Hj.
    + reflexivity.
  - intros Hup fuel. exists (turns fuel s).
    destruct (turns_spec fuel s) as [_ Hsig]. split; [|exact Hsig].
    rewrite <- (Nat.add_0_r fuel) at 1.
    rewrite keep_alive_runs by auto. reflexivity.
  - intros fuel. apply keep_alive_never_raises.
  - intros fuel. apply keep_alive_returns_cleared.
  - apply keep_alive_body_run.
Qed.

End Keeper.

Lemma keep_alive_signals_witness :
  (∃ s', keep_alive 6 (λ k, bool_decide (k = 4%nat)) 0 Sample.keeper = Ret () s'
     ∧ signal_times (trace s') =
       signal_times (trace Sample.keeper) ++ every_minute (clock Sample.keeper) 4
     ∧ (∀ j, (j < 4)%nat →
          every_minute (clock Sample.keeper) 4 !! j =
          Some (clock Sample.keeper + 60000 * Z.of_nat j))
     ∧ is_active (self s') = false)
  ∧ (∀ fuel : nat,
       ∃ s', keep_alive fuel (λ _, false) 0 Sample.keeper = Cut s'
         ∧ signal_times (trace s') =
           signal_times (trace Sample.keeper) ++ every_minute (clock Sample.keeper) fuel).
Proof.
  split.
  - apply (proj1 (keep_alive_signals (λ k, bool_decide (k = 4%nat)) Sample.keeper
                    eq_refl) 4%nat 6%nat).
    + intros j Hj. destruct j as [|[|[|[|j]]]]; [reflexivity..|lia].
    + reflexivity.
    + lia.
  - apply (proj1 (proj2 (keep_alive_signals (λ _, false) Sample.keeper eq_refl))).
    reflexivity.
Defined.

(** *** Constructor *)








Section Construction.

Variable json_loads : string → option (gmap string string).
Variable Auth0_login : M unit.





End Construction.



(** *** Conversations *)

Lemma change_conversation_run (fuel : nat) (cid : string) (s : State) :
  conversation_id (self s) ≠ cid →
  change_conversation fuel cid s =
  match change_conversation_try fuel cid (push [Debug "Changing conversation..."] s) with
  | Exc (NoSuchElementException m) s' =>
      Ret (PyDict {["message" := "Conversation not found"]})
        (push [Screenshot "change_conversation_failed.png";
               Debug "Conversation not found"] s')
  | r => r
  end.
Proof.
  intros Hne. unfold change_conversation. run.
  destruct (String.eqb_spec (conversation_id (self s)) cid) as [|_]; [contradiction|].
  unfold push, stamp. run. cbn [fmap list_fmap app].
  destruct (change_conversation_try fuel cid _) as [v s'|e s'|s']; try reflexivity.
  destruct e; reflexivity.
Qed.

Lemma change_conversation_already (fuel : nat) (cid : string) (s : State) :
  conversation_id (self s) = cid →
  change_conversation fuel cid s =
  Ret (PyDict {["message" := "Already in conversation"]})
    (push [Debug "Already in conversation"] s).
Proof.
  intros <-. unfold change_conversation. run. rewrite String.eqb_refl. reflexivity.
Qed.

(** C10. Asked for the conversation it is in, [change_conversation]
    returns the message "Already in conversation" at once: the state is the
    one before but for the debug line logged; no navigation is made, no
    observation of the browser (so no capacity wait), and the stored
    conversation id and the other attributes stay as they are. *)
Theorem change_conversation_same (fuel : nat) (cid : string) (s : State) :
  conversation_id (self s) = cid →
  change_conversation fuel cid s =
  Ret (PyDict {["message" := "Already in conversation"]})
    (push [Debug "Already in conversation"] s)
  ∧ self (push [Debug "Already in conversation"] s) = self s
  ∧ tick (push [Debug "Already in conversation"] s) = tick s
  ∧ trace (push [Debug "Already in conversation"] s) =
    (clock s, Debug "Already in conversation") :: trace s.
Proof.
  intros Heq. split; [|repeat split].
  apply change_conversation_already, Heq.
Qed.

Lemma change_conversation_same_witness :
  change_conversation 5 "abc" Sample.no_buttons =
  Ret (PyDict {["message" := "Already in conversation"]})
    (push [Debug "Already in conversation"] Sample.no_buttons)
  ∧ self (push [Debug "Already in conversation"] Sample.no_buttons) =
    self Sample.no_buttons
  ∧ tick (push [Debug "Already in conversation"] Sample.no_buttons) =
    tick Sample.no_buttons
  ∧ trace (push [Debug "Already in conversation"] Sample.no_buttons) =
    (clock Sample.no_buttons, Debug "Already in conversation")
    :: trace Sample.no_buttons.
Proof.
  apply (change_conversation_same 5 "abc" Sample.no_buttons). reflexivity.
Defined.





(** ** More of the client *)

(** *** Patterns *)

Lemma app_empty_l (s : string) : EmptyString +:+ s = s.
Proof. reflexivity. Qed.

Lemma app_cons (c : ascii) (s t : string) : String c s +:+ t = String c (s +:+ t).
Proof. reflexivity. Qed.

Lemma app_eq_empty (s t : string) : s +:+ t = EmptyString → s = EmptyString ∧ t = EmptyString.
Proof. destruct s; [auto|discriminate]. Qed.


Lemma nullable_matches (r : Re.regex) :
  Re.nullable r = true ↔ matches r EmptyString.
Proof.
  split.
  - induction r; cbn; intros H; try discriminate.
    + constructor.
    + apply andb_true_iff in H as [H1 H2].
      eapply matches_cat; [apply IHr1, H1|apply IHr2, H2|reflexivity].
    + apply orb_true_iff in H as [H|H];
        [apply matches_alt_l, IHr1, H|apply matches_alt_r, IHr2, H].
    + constructor.
  - intros H. remember EmptyString as s eqn:Hs.
    induction H; subst; cbn; try reflexivity; try discriminate.
    + symmetry in H1. apply app_eq_empty in H1 as [-> ->].
      rewrite IHmatches1, IHmatches2; reflexivity.
    + rewrite IHmatches; reflexivity.
    + rewrite IHmatches by reflexivity. apply orb_true_r.
Qed.

Lemma matches_star_inv (r : Re.regex) (c : ascii) (s : string) :
  matches (Re.Star r) (String c s) →
  ∃ s1 s2, s = s1 +:+ s2 ∧ matches r (String c s1) ∧ matches (Re.Star r) s2.
Proof.
  intros H. remember (Re.Star r) as r' eqn:Hr. remember (String c s) as t eqn:Ht.
  revert s Ht. induction H; intros t Ht; try discriminate.
  injection Hr as ->. subst s.
  destruct s1 as [|c1 s1].
  - apply IHmatches2; [reflexivity|exact Ht].
  - rewrite app_cons in Ht. injection Ht as -> <-. eauto.
Qed.

Lemma deriv_matches (r : Re.regex) :
  ∀ (c : ascii) (s : string), matches (Re.deriv c r) s ↔ matches r (String c s).
Proof.
  induction r as [| |p|r1 IH1 r2 IH2|r1 IH1 r2 IH2|r IH]; intros c s; cbn [Re.deriv].
  - split; intros H; inversion H.
  - split; intros H; inversion H.
  - destruct (p c) eqn:Hp; split; intros H; inversion H; subst.
    + constructor. exact Hp.
    + constructor.
    + congruence.
  - assert (Hcat : matches (Re.Cat (Re.deriv c r1) r2) s →
                   matches (Re.Cat r1 r2) (String c s)).
    { intros H. inversion H; subst.
      eapply matches_cat; [apply IH1; eassumption|eassumption|reflexivity]. }
    assert (Hinv : matches (Re.Cat r1 r2) (String c s) →
                   matches (Re.Cat (Re.deriv c r1) r2) s
                   ∨ (Re.nullable r1 = true ∧ matches (Re.deriv c r2) s)).
    { intros H. inversion H; subst. destruct s1 as [|c1 s1].
      - right. split; [apply nullable_matches; assumption|].
        apply IH2. rewrite app_empty_l in *. congruence.
      - left. rewrite app_cons in *.
        match goal with E : String _ _ = String _ _ |- _ => injection E as -> -> end.
        eapply matches_cat; [apply IH1; eassumption|eassumption|reflexivity]. }
    destruct (Re.nullable r1) eqn:Hn; split.
    + intros H. inversion H; subst; [apply Hcat; assumption|].
      eapply matches_cat;
        [apply nullable_matches, Hn|apply IH2; eassumption|reflexivity].
    + intros H. destruct (Hinv H) as [H'|[_ H']];
        [apply matches_alt_l, H'|apply matches_alt_r, H'].
    + exact Hcat.
    + intros H. destruct (Hinv H) as [H'|[? _]]; [exact H'|discriminate].
  - split; intros H; inversion H; subst.
    + apply matches_alt_l, IH1. assumption.
    + apply matches_alt_r, IH2. assumption.
    + apply matches_alt_l, IH1. assumption.
    + apply matches_alt_r, IH2. assumption.
  - split.
    + intros H. inversion H; subst.
      eapply matches_star_cons; [apply IH; eassumption|eassumption|reflexivity].
    + intros H. apply matches_star_inv in H as (s1 & s2 & -> & H1 & H2).
      eapply matches_cat; [apply IH; eassumption|eassumption|reflexivity].
Qed.

Lemma fullmatch_matches (s : string) :
  ∀ r : Re.regex, Re.fullmatch r s = true ↔ matches r s.
Proof.
  induction s as [|c s IH]; intros r; cbn [Re.fullmatch].
  - apply nullable_matches.
  - rewrite IH. apply deriv_matches.
Qed.





















(** *** Transcript *)

Lemma py_dict_snoc (pairs : list (string * string)) (k v : string) :
  py_dict (pairs ++ [(k, v)]) = <[k := v]> (py_dict pairs).
Proof. unfold py_dict. rewrite foldl_app. reflexivity. Qed.

(** what [dict] keeps for a key is the value of its last pair *)
Lemma py_dict_last_wins (pairs : list (string * string)) :
  ∀ (i : nat) (k v : string),
    pairs !! i = Some (k, v) →
    (∀ j v', (i < j)%nat → pairs !! j ≠ Some (k, v')) →
    py_dict pairs !! k = Some v.
Proof.
  induction pairs as [|[k' v'] pairs IH] using rev_ind; intros i k v Hi Hlater.
  - discriminate.
  - rewrite py_dict_snoc. apply lookup_snoc_Some in Hi as [[Hlt Hi]|[-> [= <- <-]]].
    + assert (k' ≠ k) as Hne.
      { intros ->. apply (Hlater (length pairs) v' Hlt).
        apply list_lookup_middle. reflexivity. }
      rewrite lookup_insert_ne by exact Hne.
      apply (IH i); [exact Hi|]. intros j w Hj Hjw.
      apply (Hlater j w Hj). rewrite lookup_app_l; [exact Hjw|].
      apply lookup_lt_Some in Hjw. exact Hjw.
    + apply lookup_insert_eq.
Qed.

(** and [dict] has no key but those of its pairs *)
Lemma py_dict_keys (pairs : list (string * string)) (k v : string) :
  py_dict pairs !! k = Some v → (k, v) ∈ pairs.
Proof.
  induction pairs as [|[k' v'] pairs IH] using rev_ind.
  - unfold py_dict. cbn. rewrite lookup_empty. discriminate.
  - rewrite py_dict_snoc. destruct (decide (k' = k)) as [->|Hne].
    + rewrite lookup_insert_eq. intros [= ->]. set_solver.
    + rewrite lookup_insert_ne by exact Hne. intros H. set_solver.
Qed.

Lemma get_conversation_data_found (s : State) :
  elements (browser s (tick s)) conversation_div ≠ [] →
  get_conversation_data s =
  Ret (PyDict (py_dict (zip (prompt_texts s) (reply_texts s)))) (advance 3 s).
Proof.
  intros H. unfold get_conversation_data, element_find_elements, prompt_texts,
    reply_texts. run.
  destruct (elements (browser s (tick s)) conversation_div); [contradiction|].
  reflexivity.
Qed.

(** X2. [get_conversation_data] never raises: without the conversation
    container on the page it returns the message "No conversation found",
    having looked at the page once. *)
Theorem get_conversation_data_not_found (s : State) :
  (elements (browser s (tick s)) conversation_div = [] →
   get_conversation_data s =
   Ret (PyDict {["message" := "No conversation found"]}) (advance 1 s))
  ∧ ∀ (e : exn) (s' : State), get_conversation_data s ≠ Exc e s'.
Proof.
  split.
  - intros H. unfold get_conversation_data. run. rewrite H. reflexivity.
  - intros e s'. unfold get_conversation_data, element_find_elements. run.
    destruct (elements (browser s (tick s)) conversation_div); discriminate.
Qed.

(** X3. In the transcript each prompt maps to the reply at its position,
    and for a prompt that occurs several times the reply of its last
    occurrence is the one kept. *)
Theorem get_conversation_data_pairs (s : State) (i : nat) (u r : string) :
  elements (browser s (tick s)) conversation_div ≠ [] →
  prompt_texts s !! i = Some u → reply_texts s !! i = Some r →
  (∀ j, (i < j < length (reply_texts s))%nat → prompt_texts s !! j ≠ Some u) →
  ∃ d, get_conversation_data s = Ret (PyDict d) (advance 3 s) ∧ d !! u = Some r.
Proof.
  intros Hdiv Hu Hr Hlast. rewrite get_conversation_data_found by exact Hdiv.
  eexists. split; [reflexivity|].
  apply (py_dict_last_wins _ i).
  - rewrite lookup_zip_with, Hu, Hr. reflexivity.
  - intros j v' Hj Hjv.
    apply lookup_zip_with_Some in Hjv as (u' & r' & [= <- <-] & Hu' & Hr').
    apply (Hlast j); [|exact Hu'].
    apply lookup_lt_Some in Hr'. lia.
Qed.

(** X4. A prompt whose text is also the text of a reply is left out of the
    transcript: no key of the result is a reply text. *)
Theorem get_conversation_data_drops_replies (s : State) (u : string) :
  elements (browser s (tick s)) conversation_div ≠ [] →
  u ∈ reply_texts s →
  ∃ d, get_conversation_data s = Ret (PyDict d) (advance 3 s) ∧ d !! u = None.
Proof.
  intros Hdiv Hu. rewrite get_conversation_data_found by exact Hdiv.
  eexists. split; [reflexivity|].
  destruct (py_dict _ !! u) as [v|] eqn:E; [|reflexivity].
  apply py_dict_keys in E.
  apply list_elem_of_lookup in E as [j Hj].
  apply lookup_zip_with_Some in Hj as (u' & r' & [= <- <-] & Hu' & _).
  apply list_elem_of_lookup_2 in Hu'. unfold prompt_texts in Hu'.
  apply list_elem_of_filter in Hu' as [Hnot _]. contradiction.
Qed.

(** *** Reading a response *)

Lemma prefix_app (a b : string) : String.prefix a (a +:+ b) = true.
Proof.
  induction a as [|c a IH]; [destruct b; reflexivity|].
  rewrite app_cons. cbn. destruct (Ascii.ascii_dec c c); [exact IH|contradiction].
Qed.

Lemma contains_unfold (sub s : string) :
  Py.contains sub s =
  String.prefix sub s
  || match s with
     | EmptyString => false
     | String _ s' => Py.contains sub s'
     end.
Proof. destruct s; reflexivity. Qed.

Lemma contains_app (pre sub post : string) :
  Py.contains sub (pre +:+ sub +:+ post) = true.
Proof.
  induction pre as [|c pre IH].
  - rewrite app_empty_l, contains_unfold, prefix_app. reflexivity.
  - rewrite app_cons, contains_unfold, IH. apply orb_true_r.
Qed.

Lemma rev_app_rev_app (s a b : string) :
  String.rev_app (String.rev_app s a) b = String.rev_app a (s +:+ b).
Proof.
  revert a b. induction s as [|c s IH]; intros a b; [reflexivity|].
  cbn [String.rev_app]. rewrite IH. reflexivity.
Qed.

Lemma rev_rev (s : string) : String.rev (String.rev s) = s.
Proof. unfold String.rev. rewrite rev_app_rev_app. cbn. apply app_empty_r. Qed.

Lemma split_go_no_sep (sep : ascii) (s : string) :
  ∀ cur, all_chars (λ c, negb (Ascii.eqb c sep)) s = true →
         Py.split_go sep cur s = [String.rev (String.rev_app s cur)].
Proof.
  induction s as [|c s IH]; intros cur H; [reflexivity|].
  cbn in H. apply andb_true_iff in H as [Hc Hs].
  cbn [Py.split_go]. apply negb_true_iff in Hc. rewrite Hc.
  rewrite IH by exact Hs. reflexivity.
Qed.

Lemma split_go_not_nil (sep : ascii) (s : string) :
  ∀ cur, Py.split_go sep cur s ≠ [].
Proof.
  induction s as [|c s IH]; intros cur; cbn [Py.split_go]; [discriminate|].
  destruct (Ascii.eqb c sep); [discriminate|apply IH].
Qed.

Lemma last_cons_not_nil {A} (x : A) (l : list A) : l ≠ [] → last (x :: l) = last l.
Proof. destruct l; [contradiction|reflexivity]. Qed.

(** the last field of a split is what follows the last separator *)
Lemma split_last (sep : ascii) (pre field : string) :
  all_chars (λ c, negb (Ascii.eqb c sep)) field = true →
  last (Py.split (pre +:+ String sep field) sep) = Some field.
Proof.
  intros H. unfold Py.split. generalize EmptyString as cur.
  induction pre as [|c pre IH]; intros cur.
  - rewrite app_empty_l. cbn [Py.split_go]. rewrite Ascii.eqb_refl.
    rewrite split_go_no_sep by exact H.
    cbn. f_equal. apply rev_rev.
  - rewrite app_cons. cbn [Py.split_go]. destruct (Ascii.eqb c sep).
    + rewrite last_cons_not_nil by apply split_go_not_nil. apply IH.
    + apply IH.
Qed.

Lemma conversation_id_from_log_skips (front rest : list (option string)) :
  (∀ e, e ∈ front → Py.contains gen_title_url (default EmptyString e) = false) →
  conversation_id_from_log (front ++ rest) = conversation_id_from_log rest.
Proof.
  induction front as [|e front IH]; intros H; [reflexivity|].
  cbn [app conversation_id_from_log].
  rewrite (H e) by set_solver. apply IH. intros e' He'. apply H. set_solver.
Qed.

(** X5. The conversation id recovered from the performance log is what
    follows the last slash of the first request whose URL holds the title
    endpoint; the entries before it, and all after it, do not matter. *)
Theorem conversation_id_from_log_first (front rest : list (option string))
    (pre cid : string) :
  (∀ e, e ∈ front → Py.contains gen_title_url (default EmptyString e) = false) →
  Py.contains gen_title_url (pre +:+ "/" +:+ cid) = true →
  all_chars not_slash cid = true →
  conversation_id_from_log (front ++ Some (pre +:+ "/" +:+ cid) :: rest) = cid.
Proof.
  intros Hfront Hurl Hid. rewrite conversation_id_from_log_skips by exact Hfront.
  cbn [conversation_id_from_log from_option Datatypes.id]. rewrite Hurl.
  change (pre +:+ "/" +:+ cid) with (pre +:+ String "/" cid).
  rewrite split_last by exact Hid. reflexivity.
Qed.

Lemma conversation_id_from_log_none (log : list (option string)) :
  (∀ e, e ∈ log → Py.contains gen_title_url (default EmptyString e) = false) →
  conversation_id_from_log log = EmptyString.
Proof.
  intros H. rewrite <- (app_nil_r log).
  rewrite conversation_id_from_log_skips by exact H. reflexivity.
Qed.

Section Reading.

Variable markdownify : string → string.

Lemma read_response_run (s : State) :
  elements (browser s (tick s)) chatgpt_streaming = [] →
  no_error (elements (browser s (1 + tick s)) chatgpt_big_response) →
  read_response markdownify s =
  if Py.truthy_str (conversation_id (self s))
  then Ret (response_dict (response_markdown markdownify s) (conversation_id (self s)))
         (push reading_events (advance 3 s))
  else
    let url := current_url (browser s (4 + tick s)) in
    Ret (response_dict (response_markdown markdownify s)
           (conversation_id_from_log (performance_log (browser s (3 + tick s)))))
      (push (Print (repr_match url (Re.span uuid_pattern url) +:+ nl)
             :: reading_events)
         (advance 5 s)).
Proof.
  intros Hgone Hok. unfold read_response, response_dict, response_markdown. run.
  rewrite Hgone. run. rewrite raise_if_error_passes by exact Hok. run.
  destruct (Py.truthy_str (conversation_id (self s))); reflexivity.
Qed.

(** X6. Without a stored conversation id and without a request to the title
    endpoint in the performance log, the non-streamed read returns its
    message with an empty conversation id. *)
Theorem read_response_unknown_id (s : State) :
  elements (browser s (tick s)) chatgpt_streaming = [] →
  no_error (elements (browser s (1 + tick s)) chatgpt_big_response) →
  conversation_id (self s) = EmptyString →
  (∀ e, e ∈ performance_log (browser s (3 + tick s)) →
        Py.contains gen_title_url (default EmptyString e) = false) →
  ∃ s', read_response markdownify s =
        Ret (response_dict (response_markdown markdownify s) EmptyString) s'.
Proof.
  intros Hgone Hok Hid Hlog. rewrite read_response_run by assumption.
  rewrite Hid. cbn [Py.truthy_str]. cbv zeta.
  rewrite conversation_id_from_log_none by exact Hlog. eauto.
Qed.


(** X8. When the page holds no response text element, the non-streamed
    read returns an empty message, and the streaming watcher raises
    [IndexError]. *)
Theorem no_response_element (s : State) :
  no_error (elements (browser s (1 + tick s)) chatgpt_big_response) →
  elements (browser s (2 + tick s)) chatgpt_small_response = [] →
  (elements (browser s (tick s)) chatgpt_streaming = [] →
   ∃ id s', read_response markdownify s = Ret (response_dict EmptyString id) s')
  ∧ (∀ (fuel : nat) (prev : string) (body : string → M unit),
       stream_message (S fuel) prev body s =
       Exc (IndexError "list index out of range") (advance 3 s)).
Proof.
  intros Hok Hnone. split.
  - intros Hgone. rewrite read_response_run by assumption.
    unfold response_markdown. rewrite Hnone. cbn [last].
    destruct (Py.truthy_str (conversation_id (self s))); eauto.
  - intros fuel prev body. cbn [stream_message]. run.
    rewrite raise_if_error_passes by exact Hok. run.
    cbn [Nat.add] in Hnone. rewrite Hnone. reflexivity.
Qed.

End Reading.

(** *** Session check *)

Lemma filter_fresh (h : nat) (l : list nat) :
  h ∉ l → filter (λ x, x ≠ h) (l ++ [h]) = l.
Proof.
  intros H. rewrite filter_app.
  assert (filter (λ x, x ≠ h) [h] = []) as ->.
  { cbn. rewrite decide_False by auto. reflexivity. }
  rewrite app_nil_r. induction l as [|x l IH]; [reflexivity|].
  rewrite filter_cons, decide_True by set_solver.
  f_equal. apply IH. set_solver.
Qed.

Section Session.

Variable json_loads : string → option (gmap string string).
Variable Auth0_login : M unit.

Lemma validate_authorization_read (fuel w : nat) (s0 : State)
    (txt : string) (n : nat) (d : gmap string string) :
  session_text s0 = Some (txt, n) → json_loads txt = Some d →
  validate_authorization json_loads Auth0_login fuel w s0 =
  let s1 := push [Debug "Validating authorization...";
                  Debug "Cloudflare challenge passed"] (advance n s0) in
  if bool_decide (d = ∅) || bool_decide (d !! "error" = Some "RefreshAccessTokenError")
  then
    if negb (Py.truthy (auth_type (self s0)))
    then Exc (ValueError "Invalid session token")
           (push [Debug "Authorization is invalid"] s1)
    else
      match login Auth0_login fuel (push [Debug "Authorization is invalid"] s1) with
      | Ret _ s2 =>
          Ret () (push [SwitchTo w; CloseWindow (current_window_handle s2);
                        Debug "Closing tab..."; Debug "Authorization is valid"]
                    (with_windows
                       (filter (λ x, x ≠ current_window_handle s2) (handles s2))
                       w (fresh_handle s2) s2))
      | Exc e s2 => Exc e s2
      | Cut s2 => Cut s2
      end
  else
    Ret () (push [SwitchTo w; CloseWindow (current_window_handle s0);
                  Debug "Closing tab..."; Debug "Authorization is valid"]
              (with_windows
                 (filter (λ x, x ≠ current_window_handle s0) (handles s0))
                 w (fresh_handle s0) s1)).
Proof.
  unfold session_text, validate_authorization. intros Htxt Hjson. run.
  destruct (page_source (browser s0 (tick s0))) as [|c src] eqn:Hsrc;
    [discriminate|].
  run. destruct (Ascii.eqb c "{") eqn:Hc; cbn [negb].
  - injection Htxt as <- <-. run. rewrite Hjson. run.
    destruct (bool_decide (d = ∅)
              || bool_decide (d !! "error" = Some "RefreshAccessTokenError")).
    + run. destruct (negb (Py.truthy (auth_type (self s0)))); [reflexivity|].
      unfold push, advance, stamp. run. cbn [fmap list_fmap app Nat.add].
      destruct (login Auth0_login fuel _); reflexivity.
    + reflexivity.
  - run. cbn [Nat.add] in Htxt.
    destruct (elements (browser s0 (S (tick s0))) (TAG_NAME, "pre")) as [|e es];
      [discriminate|].
    injection Htxt as <- <-. run. rewrite Hjson. run.
    destruct (bool_decide (d = ∅)
              || bool_decide (d !! "error" = Some "RefreshAccessTokenError")).
    + run. destruct (negb (Py.truthy (auth_type (self s0)))); [reflexivity|].
      unfold push, advance, stamp. run. cbn [fmap list_fmap app Nat.add].
      destruct (login Auth0_login fuel _); reflexivity.
    + reflexivity.
Qed.

Lemma session_invalid_decide (d : gmap string string) :
  bool_decide (d = ∅) || bool_decide (d !! "error" = Some "RefreshAccessTokenError")
  = true ↔ session_invalid d.
Proof.
  unfold session_invalid.
  rewrite orb_true_iff, !bool_decide_eq_true. reflexivity.
Qed.

(** X9. When no challenge is met and the session endpoint's body is a
    usable session, the gate returns after that one attempt with the
    browsing context as it was: the window that was current is current
    again, the extra tab is gone, and the object's attributes are
    untouched. *)
Theorem ensure_cf_valid_session (fuel : nat) (retry : Z) (s : State)
    (txt : string) (n : nat) (d : gmap string string) :
  ¬ challenge_present s 0 →
  fresh_handle s ∉ handles s →
  session_text (passed_attempt s) = Some (txt, n) →
  json_loads txt = Some d → ¬ session_invalid d →
  ∃ s', ensure_cf json_loads Auth0_login (S fuel) retry s = Ret () s'
    ∧ current_window_handle s' = current_window_handle s
    ∧ handles s' = handles s ∧ self s' = self s
    ∧ challenge_attempts (trace s') = (challenge_attempts (trace s) + 1)%nat.
Proof.
  intros Habsent Hfresh Htxt Hjson Hvalid.
  rewrite ensure_cf_passed by exact Habsent.
  rewrite (validate_authorization_read _ _ _ txt n d) by assumption.
  cbv zeta. destruct (bool_decide (d = ∅) || bool_decide _) eqn:E.
  - apply session_invalid_decide in E. contradiction.
  - eexists. split; [reflexivity|]. cbn.
    rewrite decide_True by reflexivity.
    repeat split; [apply filter_fresh, Hfresh|lia].
Qed.

(** X10. When no challenge is met, the body of the session endpoint is
    empty or carries [RefreshAccessTokenError], and no auth type is
    configured, the gate raises [ValueError] "Invalid session token". *)
Theorem ensure_cf_invalid_session (fuel : nat) (retry : Z) (s : State)
    (txt : string) (n : nat) (d : gmap string string) :
  ¬ challenge_present s 0 →
  session_text (passed_attempt s) = Some (txt, n) →
  json_loads txt = Some d → session_invalid d →
  Py.truthy (auth_type (self s)) = false →
  ∃ s', ensure_cf json_loads Auth0_login (S fuel) retry s =
        Exc (ValueError "Invalid session token") s'
    ∧ self s' = self s.
Proof.
  intros Habsent Htxt Hjson Hinvalid Hauth.
  rewrite ensure_cf_passed by exact Habsent.
  rewrite (validate_authorization_read _ _ _ txt n d) by assumption.
  cbv zeta. rewrite (proj2 (session_invalid_decide d) Hinvalid).
  change (self (passed_attempt s)) with (self s). rewrite Hauth. cbn [negb].
  eexists. split; reflexivity.
Qed.

(** X11. A retry budget of zero or less buys exactly one attempt: when the
    challenge form is there at that attempt the gate raises at once. *)
Theorem ensure_cf_no_budget (fuel : nat) (retry : Z) (s : State) :
  retry ≤ 0 → challenge_present s 0 →
  ensure_cf json_loads Auth0_login (S fuel) retry s =
  Exc (ValueError "Cloudflare challenge failed") (last_attempt retry s)
  ∧ challenge_attempts (trace (last_attempt retry s)) =
    (challenge_attempts (trace s) + 1)%nat.
Proof.
  intros Hretry Hpresent. split.
  - apply ensure_cf_exhausted; assumption.
  - cbn. rewrite decide_True by reflexivity. lia.
Qed.

End Session.

(** *** Login *)

Section Login.

Variable Auth0_login : M unit.

Lemma login_reaches_provider (fuel : nat) (s : State) (btn : WebElement)
    (bs : list WebElement) :
  elements (browser s (tick s)) chatgpt_capacity = [] →
  elements (browser s (1 + tick s)) chatgpt_login_btn = btn :: bs →
  we_clickable btn = true →
  elements (browser s (2 + tick s)) chatgpt_login_h1 ≠ [] →
  login Auth0_login (S fuel) s =
  match Auth0_login (login_opened btn s) with
  | Ret _ s4 =>
      match elements (browser s4 (tick s4)) chatgpt_logged_h1 with
      | [] =>
          Exc (TimeoutException EmptyString)
            (push [Screenshot "login_failed.png";
                   Waited 5 chatgpt_logged_h1 false;
                   Debug "Checking if login was successful"] (advance 1 s4))
      | _ :: _ =>
          let w := current_window_handle s in
          let closed s' :=
            push [SwitchTo w; CloseWindow (current_window_handle s4);
                  Debug "Closing tab..."]
              (with_windows
                 (filter (λ x, x ≠ current_window_handle s4) (handles s4))
                 w (fresh_handle s4) s') in
          if Py.truthy_str (login_cookies_path (self s4))
          then
            Ret () (closed
                      (push [WriteCookies (login_cookies_path (self s4))
                               (session_cookies (cookies (browser s4 (1 + tick s4))));
                             Debug "Saving cookies...";
                             Waited 5 chatgpt_logged_h1 true;
                             Debug "Checking if login was successful"]
                         (advance 2 s4)))
          else
            Ret () (closed
                      (push [Waited 5 chatgpt_logged_h1 true;
                             Debug "Checking if login was successful"]
                         (advance 1 s4)))
      end
  | Exc e s4 => Exc e s4
  | Cut s4 => Cut s4
  end.
Proof.
  intros Hcap Hbtn Hclick Hh1. unfold login, login_opened, session_cookies.
  cbn [check_capacity]. run. rewrite Hcap. run. cbn [Nat.add] in Hbtn, Hh1.
  rewrite Hbtn. rewrite Hclick. run.
  destruct (elements (browser s (S (S (tick s)))) chatgpt_login_h1) as [|h1 hs];
    [contradiction|].
  run. unfold push, advance, stamp, capacity_exit. run.
  cbn [fmap list_fmap app Nat.add].
  destruct (Auth0_login _) as [[] s4|e s4|s4]; [|reflexivity..].
  run. destruct (elements (browser s4 (tick s4)) chatgpt_logged_h1) as [|e es].
  - reflexivity.
  - run. destruct (Py.truthy_str (login_cookies_path (self s4))); reflexivity.
Qed.

(** X12. When the logged-in heading does not show up after the identity
    provider's flow, [__login] takes the screenshot [login_failed.png] and
    raises the [TimeoutException] of the wait; the login tab stays open. *)
Theorem login_not_confirmed (fuel : nat) (s s4 : State) (btn : WebElement)
    (bs : list WebElement) :
  elements (browser s (tick s)) chatgpt_capacity = [] →
  elements (browser s (1 + tick s)) chatgpt_login_btn = btn :: bs →
  we_clickable btn = true →
  elements (browser s (2 + tick s)) chatgpt_login_h1 ≠ [] →
  Auth0_login (login_opened btn s) = Ret () s4 →
  elements (browser s4 (tick s4)) chatgpt_logged_h1 = [] →
  login Auth0_login (S fuel) s =
  Exc (TimeoutException EmptyString)
    (push [Screenshot "login_failed.png"; Waited 5 chatgpt_logged_h1 false;
           Debug "Checking if login was successful"] (advance 1 s4)).
Proof.
  intros Hcap Hbtn Hclick Hh1 Hauth Hlogged.
  rewrite (login_reaches_provider fuel s btn bs) by assumption.
  rewrite Hauth, Hlogged. reflexivity.
Qed.

(** X13. When the login succeeds and a cookie path is configured, what
    [__login] writes to that path is the session-token cookies and no
    other cookie of the browser; it then closes the login tab and makes the
    window it was called in current again. *)
Theorem login_saves_session_cookies (fuel : nat) (s s4 : State)
    (btn : WebElement) (bs : list WebElement) :
  elements (browser s (tick s)) chatgpt_capacity = [] →
  elements (browser s (1 + tick s)) chatgpt_login_btn = btn :: bs →
  we_clickable btn = true →
  elements (browser s (2 + tick s)) chatgpt_login_h1 ≠ [] →
  Auth0_login (login_opened btn s) = Ret () s4 →
  elements (browser s4 (tick s4)) chatgpt_logged_h1 ≠ [] →
  login_cookies_path (self s4) ≠ EmptyString →
  ∃ s' written,
    login Auth0_login (S fuel) s = Ret () s'
    ∧ trace s' =
      stamp (clock s4)
        [SwitchTo (current_window_handle s);
         CloseWindow (current_window_handle s4); Debug "Closing tab...";
         WriteCookies (login_cookies_path (self s4)) written;
         Debug "Saving cookies..."; Waited 5 chatgpt_logged_h1 true;
         Debug "Checking if login was successful"]
      ++ trace s4
    ∧ written = session_cookies (cookies (browser s4 (1 + tick s4)))
    ∧ (∀ c, c ∈ written → c.1 = session_cookie)
    ∧ current_window_handle s' = current_window_handle s.
Proof.
  intros Hcap Hbtn Hclick Hh1 Hauth Hlogged Hpath.
  rewrite (login_reaches_provider fuel s btn bs) by assumption.
  rewrite Hauth.
  destruct (elements (browser s4 (tick s4)) chatgpt_logged_h1); [contradiction|].
  cbv zeta.
  assert (Py.truthy_str (login_cookies_path (self s4)) = true) as ->
    by (destruct (login_cookies_path (self s4)); [contradiction|reflexivity]).
  eexists _, _. split; [reflexivity|]. split; [reflexivity|].
  split; [reflexivity|]. split; [|reflexivity].
  intros c Hc. unfold session_cookies in Hc.
  apply list_elem_of_filter in Hc as [Hc _]. exact Hc.
Qed.

End Login.

(** *** What the page checks leave alone *)

Lemma same_session_refl (s : State) : same_session s s.
Proof. repeat split. Qed.

Lemma same_session_trans (s1 s2 s3 : State) :
  same_session s1 s2 → same_session s2 s3 → same_session s1 s3.
Proof.
  unfold same_session. intros (?&?&?&?&?&?) (?&?&?&?&?&?).
  repeat split; congruence.
Qed.

Lemma same_session_step (evs : list event) (n : nat) (s : State) :
  same_session s (push evs (advance n s)).
Proof. repeat split. Qed.

(** however long it polls and however it ends, [__check_capacity] changes
    neither the object's attributes nor the windows *)
Lemma check_capacity_same_session (fuel : nat) (url : string) :
  ∀ s : State, same_session s (final (check_capacity fuel url s)).
Proof.
  induction fuel as [|fuel IH]; intros s; [apply same_session_refl|].
  destruct (elements (browser s (tick s)) chatgpt_capacity) as [|e es] eqn:E.
  - rewrite check_capacity_free by (unfold at_capacity; cbn; rewrite E; auto).
    apply same_session_step.
  - rewrite check_capacity_found by (unfold at_capacity; cbn; rewrite E; discriminate).
    eapply same_session_trans; [|apply IH]. apply same_session_step.
Qed.

Lemma check_blocking_elements_frame (s : State) :
  same_session s (final (check_blocking_elements s)).
Proof.
  unfold check_blocking_elements. run.
  destruct (elements (browser s (tick s)) chatgpt_intro) as [|i is_]; run.
  - destruct (elements (browser s (S (tick s))) chatgpt_alert) as [|a as_]; run;
      [repeat split|].
    destruct (script_error (browser s (S (S (tick s))))); repeat split.
  - destruct (script_error (browser s (S (tick s)))) as [e|]; run.
    + destruct e; cbn [is_TimeoutException]; run; try solve [repeat split].
      destruct (elements (browser s (S (S (tick s)))) chatgpt_alert) as [|a as_];
        run; [repeat split|].
      destruct (script_error (browser s (S (S (S (tick s)))))); repeat split.
    + destruct (elements (browser s (S (S (tick s)))) chatgpt_alert) as [|a as_];
        run; [repeat split|].
      destruct (script_error (browser s (S (S (S (tick s)))))); repeat split.
Qed.

(** X14. However long they poll and however they end (returning, raising,
    or still waiting for capacity), the Capacity Waiter, the check for
    blocking elements and [refresh_chat_page], which runs both, change
    neither the object's attributes nor the windows: all they leave behind
    is observations made and lines in the trace. *)
Theorem page_checks_frame (fuel : nat) (url : string) (s : State) :
  same_session s (final (check_capacity fuel url s))
  ∧ same_session s (final (check_blocking_elements s))
  ∧ same_session s (final (refresh_chat_page fuel s)).
Proof.
  split; [apply check_capacity_same_session|].
  split; [apply check_blocking_elements_frame|].
  unfold refresh_chat_page. run.
  destruct (negb (Py.startswith (current_url (browser s (tick s))) chatgpt_chat_url));
    run; [repeat split|].
  unfold push, advance, stamp. run. cbn [fmap list_fmap app Nat.add].
  match goal with
  | |- context [check_capacity fuel ?u ?s0] =>
      pose proof (check_capacity_same_session fuel u s0) as H1;
      destruct (check_capacity fuel u s0) as [[] s1|e s1|s1]
  end; cbn [final] in H1; [|exact H1..].
  eapply same_session_trans; [exact H1|].
  pose proof (check_blocking_elements_frame s1) as H2.
  destruct (check_blocking_elements s1) as [[] s2|e s2|s2]; exact H2.
Qed.

(** X15. A page without intro and without alerts is no error for
    [__check_blocking_elements], and it dismisses what there is: as long as
    the scripts it runs do not fail, it returns, with the object's
    attributes and the windows as they were. *)
Theorem check_blocking_elements_returns (s : State) :
  (∀ k, script_error (browser s (k + tick s)) = None) →
  ∃ s', check_blocking_elements s = Ret () s' ∧ same_session s s'.
Proof.
  intros Hok. pose proof (check_blocking_elements_frame s) as Hframe.
  revert Hframe. unfold check_blocking_elements. run.
  pose proof (Hok 1%nat) as H1. pose proof (Hok 2%nat) as H2.
  pose proof (Hok 3%nat) as H3. cbn [Nat.add] in H1, H2, H3.
  destruct (elements (browser s (tick s)) chatgpt_intro) as [|i is_]; run.
  - destruct (elements (browser s (S (tick s))) chatgpt_alert) as [|a as_]; run;
      [eauto|].
    rewrite H2. eauto.
  - rewrite H1. run.
    destruct (elements (browser s (S (S (tick s)))) chatgpt_alert) as [|a as_];
      run; [eauto|].
    rewrite H3. eauto.
Qed.

(** X16. [__remove_starting_message] never raises: a button that is not
    there ends it quietly, with the object's attributes and the windows as
    they were. *)
Theorem remove_starting_message_returns (s : State) :
  ∃ s', remove_starting_message s = Ret () s' ∧ same_session s s'.
Proof.
  unfold remove_starting_message, click_button. run.
  destruct (Py.truthy_str (conversation_id (self s)));
    repeat match goal with
           | |- context [elements ?p ?l] => destruct (elements p l); run
           end;
    (eexists; split; [reflexivity|repeat split]).
Qed.

(** *** Conversations *)

Lemma change_conversation_try_run (fuel : nat) (cid : string) (s : State) :
  change_conversation_try fuel cid s =
  match check_capacity fuel ("https://chat.openai.com/c/" +:+ cid)
          (push [Get ("https://chat.openai.com/c/" +:+ cid)] s) with
  | Ret _ s1 =>
      match check_blocking_elements s1 with
      | Ret _ s2 =>
          Ret (PyDict {["message" := "Changed Successfully"]})
            (with_self (set_conversation_id cid) s2)
      | Exc e s2 => Exc e s2
      | Cut s2 => Cut s2
      end
  | Exc e s1 => Exc e s1
  | Cut s1 => Cut s1
  end.
Proof.
  unfold change_conversation_try. run. unfold push, stamp. run.
  cbn [fmap list_fmap app].
  destruct (check_capacity fuel _ _) as [[] s1|e s1|s1]; [|reflexivity..].
  destruct (check_blocking_elements s1) as [[] s2|e s2|s2]; reflexivity.
Qed.

Lemma change_conversation_try_frame (fuel : nat) (cid : string) (s : State) :
  let r := change_conversation_try fuel cid s in
  (∃ s', r = Ret (PyDict {["message" := "Changed Successfully"]}) s'
         ∧ self s' = set_conversation_id cid (self s))
  ∨ ((∀ v s', r ≠ Ret v s') ∧ self (final r) = self s).
Proof.
  cbv zeta. rewrite change_conversation_try_run.
  pose proof (check_capacity_same_session fuel ("https://chat.openai.com/c/" +:+ cid)
                (push [Get ("https://chat.openai.com/c/" +:+ cid)] s)) as H1.
  destruct (check_capacity fuel _ _) as [[] s1|e s1|s1]; cbn [final] in H1;
    destruct H1 as (Hself1 & _); cbn in Hself1.
  - pose proof (check_blocking_elements_frame s1) as H2.
    destruct (check_blocking_elements s1) as [[] s2|e s2|s2]; cbn [final] in H2;
      destruct H2 as (Hself2 & _).
    + left. eexists. split; [reflexivity|]. cbn. rewrite Hself2, Hself1. reflexivity.
    + right. split; [discriminate|]. cbn. congruence.
    + right. split; [discriminate|]. cbn. congruence.
  - right. split; [discriminate|]. exact Hself1.
  - right. split; [discriminate|]. exact Hself1.
Qed.

(** X17. [change_conversation] stores the new conversation id exactly when
    it answers "Changed Successfully"; however else it ends (already
    there, not found, an exception, still waiting for capacity), the
    object's attributes are those it started with. *)
Theorem change_conversation_stores (fuel : nat) (cid : string) (s : State) :
  (∃ s', change_conversation fuel cid s =
         Ret (PyDict {["message" := "Changed Successfully"]}) s'
     ∧ self s' = set_conversation_id cid (self s))
  ∨ ((∀ s', change_conversation fuel cid s ≠
            Ret (PyDict {["message" := "Changed Successfully"]}) s')
     ∧ self (final (change_conversation fuel cid s)) = self s).
Proof.
  destruct (String.eqb_spec (conversation_id (self s)) cid) as [Heq|Hne].
  - right. rewrite (change_conversation_already fuel cid s Heq).
    split; [|reflexivity]. intros s' H.
    apply (f_equal message_of) in H. vm_compute in H. discriminate.
  - rewrite change_conversation_run by exact Hne.
    destruct (change_conversation_try_frame fuel cid
                (push [Debug "Changing conversation..."] s))
      as [(s' & -> & Hself)|[Hnot Hself]].
    + left. eauto.
    + right. destruct (change_conversation_try fuel cid _) as [v s1|e s1|s1].
      * exfalso. apply (Hnot v s1). reflexivity.
      * destruct e; cbn [final] in *;
          (split; [|exact Hself]); intros s' H;
          apply (f_equal message_of) in H; vm_compute in H; discriminate.
      * split; [discriminate|exact Hself].
Qed.

(** X18. A change to another conversation that meets no capacity limit and
    no blocking element answers "Changed Successfully" and stores the id;
    asked for the same conversation again, the client answers "Already in
    conversation" without touching the browser. *)
Theorem change_conversation_twice (fuel : nat) (cid : string) (s : State) :
  conversation_id (self s) ≠ cid →
  elements (browser s (tick s)) chatgpt_capacity = [] →
  elements (browser s (1 + tick s)) chatgpt_intro = [] →
  elements (browser s (2 + tick s)) chatgpt_alert = [] →
  ∃ s', change_conversation (S fuel) cid s =
        Ret (PyDict {["message" := "Changed Successfully"]}) s'
    ∧ conversation_id (self s') = cid
    ∧ tick s' = (3 + tick s)%nat
    ∧ ∀ fuel', change_conversation fuel' cid s' =
               Ret (PyDict {["message" := "Already in conversation"]})
                 (push [Debug "Already in conversation"] s').
Proof.
  intros Hne Hcap Hintro Halert. rewrite change_conversation_run by exact Hne.
  rewrite change_conversation_try_run.
  rewrite check_capacity_free by (unfold at_capacity; cbn; rewrite Hcap; auto).
  unfold check_blocking_elements, push, advance, stamp, capacity_exit. run.
  cbn [fmap list_fmap app Nat.add]. cbn [Nat.add] in Hintro, Halert.
  rewrite Hintro. run. rewrite Halert. run.
  eexists. split; [reflexivity|]. split; [reflexivity|]. split; [reflexivity|].
  intros fuel'. apply change_conversation_already. reflexivity.
Qed.

(** X19. When both buttons are on the page, [delete_conversation] clicks
    the delete button, then the confirmation, and forgets the conversation
    id; called again it finds nothing to delete and does not look at the
    page. *)
Theorem delete_conversation_twice (s : State) (b c : WebElement)
    (bs cs : list WebElement) :
  conversation_id (self s) ≠ EmptyString →
  elements (browser s (tick s)) delete_button = b :: bs →
  elements (browser s (1 + tick s)) confirmation_button = c :: cs →
  let s' := push [Debug "Conversation Deleted"; Click c; Click b]
              (with_self (set_conversation_id EmptyString) (advance 2 s)) in
  delete_conversation s = Ret PyNone s'
  ∧ delete_conversation s' =
    Ret PyNone (push [Debug "No conversation to delete"] s').
Proof.
  intros Hid Hb Hc. cbv zeta. split.
  - unfold delete_conversation. run.
    destruct (conversation_id (self s)); [contradiction|].
    cbn [Py.truthy_str negb]. run. rewrite Hb. run.
    cbn [Nat.add] in Hc. rewrite Hc. reflexivity.
  - reflexivity.
Qed.

(** *** The theorems above, at sample inputs *)


Lemma get_conversation_data_not_found_witness :
  get_conversation_data Sample.no_buttons =
  Ret (PyDict {["message" := "No conversation found"]}) (advance 1 Sample.no_buttons).
Proof.
  apply (proj1 (get_conversation_data_not_found Sample.no_buttons)).
  vm_compute. reflexivity.
Defined.

Lemma get_conversation_data_pairs_witness :
  ∃ d, get_conversation_data Scene.reading = Ret (PyDict d) (advance 3 Scene.reading)
       ∧ d !! "Q2" = Some "A2".
Proof.
  apply (get_conversation_data_pairs Scene.reading 1 "Q2" "A2").
  - vm_compute. discriminate.
  - vm_compute. reflexivity.
  - vm_compute. reflexivity.
  - intros j Hj. vm_compute in Hj. lia.
Defined.

Lemma get_conversation_data_drops_replies_witness :
  ∃ d, get_conversation_data Scene.reading = Ret (PyDict d) (advance 3 Scene.reading)
       ∧ d !! "A1" = None.
Proof.
  apply (get_conversation_data_drops_replies Scene.reading "A1").
  - vm_compute. discriminate.
  - vm_compute. set_solver.
Defined.

Lemma conversation_id_from_log_first_witness :
  conversation_id_from_log
    (Scene.earlier_requests ++ Some (gen_title_url +:+ "/" +:+ "0a1b2c3d") :: [None]) =
  "0a1b2c3d".
Proof.
  apply (conversation_id_from_log_first Scene.earlier_requests [None]
           gen_title_url "0a1b2c3d").
  - intros e He. unfold Scene.earlier_requests in He.
    rewrite !elem_of_cons, elem_of_nil in He.
    destruct He as [->|[->|[]]]; vm_compute; reflexivity.
  - vm_compute. reflexivity.
  - vm_compute. reflexivity.
Defined.

Lemma read_response_unknown_id_witness :
  ∃ s', read_response Sample.markdownify Sample.answered =
        Ret (response_dict (response_markdown Sample.markdownify Sample.answered)
               EmptyString) s'.
Proof.
  apply (read_response_unknown_id Sample.markdownify Sample.answered).
  - vm_compute. reflexivity.
  - intros e He. vm_compute in He. injection He as <-. reflexivity.
  - reflexivity.
  - intros e He. vm_compute in He. inversion He.
Defined.


Lemma no_response_element_witness :
  (∃ id s', read_response Sample.markdownify Sample.rejected =
            Ret (response_dict EmptyString id) s')
  ∧ ∀ (fuel : nat) (prev : string) (body : string → M unit),
      stream_message (S fuel) prev body Sample.rejected =
      Exc (IndexError "list index out of range") (advance 3 Sample.rejected).
Proof.
  destruct (no_response_element Sample.markdownify Sample.rejected) as [H1 H2].
  - intros e He. vm_compute in He. discriminate.
  - vm_compute. reflexivity.
  - split; [apply H1; vm_compute; reflexivity|exact H2].
Defined.

Lemma ensure_cf_valid_session_witness :
  ∃ s', ensure_cf Sample.json_loads Sample.Auth0_login 5 3 Sample.signed_in = Ret () s'
    ∧ current_window_handle s' = current_window_handle Sample.signed_in
    ∧ handles s' = handles Sample.signed_in ∧ self s' = self Sample.signed_in
    ∧ challenge_attempts (trace s') =
      (challenge_attempts (trace Sample.signed_in) + 1)%nat.
Proof.
  apply (ensure_cf_valid_session Sample.json_loads Sample.Auth0_login 4 3
           Sample.signed_in "{user}" 1 {["user" := "me"]}).
  - vm_compute. intros H. apply H. reflexivity.
  - intros H. apply list_elem_of_In in H. vm_compute in H.
    destruct H as [H|[]]. discriminate.
  - vm_compute. reflexivity.
  - vm_compute. reflexivity.
  - intros [H|H].
    + apply (f_equal (λ d : gmap string string, d !! "user")) in H.
      vm_compute in H. discriminate.
    + vm_compute in H. discriminate.
Defined.

Lemma ensure_cf_invalid_session_witness :
  ∃ s', ensure_cf Sample.json_loads Sample.Auth0_login 5 3 Sample.rejected =
        Exc (ValueError "Invalid session token") s'
    ∧ self s' = self Sample.rejected.
Proof.
  apply (ensure_cf_invalid_session Sample.json_loads Sample.Auth0_login 4 3
           Sample.rejected "{}" 1 ∅).
  - vm_compute. intros H. apply H. reflexivity.
  - vm_compute. reflexivity.
  - vm_compute. reflexivity.
  - left. reflexivity.
  - reflexivity.
Defined.

Lemma ensure_cf_no_budget_witness :
  ensure_cf Sample.json_loads Sample.Auth0_login 5 (-2) Sample.blocked =
  Exc (ValueError "Cloudflare challenge failed") (last_attempt (-2) Sample.blocked)
  ∧ challenge_attempts (trace (last_attempt (-2) Sample.blocked)) =
    (challenge_attempts (trace Sample.blocked) + 1)%nat.
Proof.
  apply (ensure_cf_no_budget Sample.json_loads Sample.Auth0_login 4 (-2)
           Sample.blocked).
  - lia.
  - vm_compute. discriminate.
Defined.

Lemma login_not_confirmed_witness :
  login Sample.Auth0_login 5 Scene.login_stuck =
  Exc (TimeoutException EmptyString)
    (push [Screenshot "login_failed.png"; Waited 5 chatgpt_logged_h1 false;
           Debug "Checking if login was successful"]
       (advance 1 (login_opened Scene.login_button Scene.login_stuck))).
Proof.
  apply (login_not_confirmed Sample.Auth0_login 4 Scene.login_stuck
           (login_opened Scene.login_button Scene.login_stuck)
           Scene.login_button []).
  - vm_compute. reflexivity.
  - vm_compute. reflexivity.
  - reflexivity.
  - vm_compute. discriminate.
  - reflexivity.
  - vm_compute. reflexivity.
Defined.

Lemma login_saves_session_cookies_witness :
  ∃ s' written,
    login Sample.Auth0_login 5 Scene.logging_in = Ret () s'
    ∧ trace s' =
      stamp (clock (login_opened Scene.login_button Scene.logging_in))
        [SwitchTo (current_window_handle Scene.logging_in);
         CloseWindow
           (current_window_handle (login_opened Scene.login_button Scene.logging_in));
         Debug "Closing tab...";
         WriteCookies
           (login_cookies_path (self (login_opened Scene.login_button Scene.logging_in)))
           written;
         Debug "Saving cookies..."; Waited 5 chatgpt_logged_h1 true;
         Debug "Checking if login was successful"]
      ++ trace (login_opened Scene.login_button Scene.logging_in)
    ∧ written =
      session_cookies
        (cookies (browser (login_opened Scene.login_button Scene.logging_in)
                    (1 + tick (login_opened Scene.login_button Scene.logging_in))))
    ∧ (∀ c, c ∈ written → c.1 = session_cookie)
    ∧ current_window_handle s' = current_window_handle Scene.logging_in.
Proof.
  apply (login_saves_session_cookies Sample.Auth0_login 4 Scene.logging_in
           (login_opened Scene.login_button Scene.logging_in)
           Scene.login_button []).
  - vm_compute. reflexivity.
  - vm_compute. reflexivity.
  - reflexivity.
  - vm_compute. discriminate.
  - reflexivity.
  - vm_compute. discriminate.
  - vm_compute. discriminate.
Defined.

Lemma check_blocking_elements_returns_witness :
  ∃ s', check_blocking_elements Scene.cluttered = Ret () s'
        ∧ same_session Scene.cluttered s'.
Proof.
  apply (check_blocking_elements_returns Scene.cluttered).
  intros k. reflexivity.
Defined.

Lemma change_conversation_twice_witness :
  ∃ s', change_conversation 5 "xyz" Sample.no_buttons =
        Ret (PyDict {["message" := "Changed Successfully"]}) s'
    ∧ conversation_id (self s') = "xyz"
    ∧ tick s' = (3 + tick Sample.no_buttons)%nat
    ∧ ∀ fuel', change_conversation fuel' "xyz" s' =
               Ret (PyDict {["message" := "Already in conversation"]})
                 (push [Debug "Already in conversation"] s').
Proof.
  apply (change_conversation_twice 4 "xyz" Sample.no_buttons).
  - vm_compute. discriminate.
  - vm_compute. reflexivity.
  - vm_compute. reflexivity.
  - vm_compute. reflexivity.
Defined.

Lemma delete_conversation_twice_witness :
  let s' := push [Debug "Conversation Deleted"; Click Scene.confirm; Click Sample.trash]
              (with_self (set_conversation_id EmptyString) (advance 2 Scene.deletable)) in
  delete_conversation Scene.deletable = Ret PyNone s'
  ∧ delete_conversation s' =
    Ret PyNone (push [Debug "No conversation to delete"] s').
Proof.
  apply (delete_conversation_twice Scene.deletable Sample.trash Scene.confirm [] []).
  - vm_compute. discriminate.
  - vm_compute. reflexivity.
  - vm_compute. reflexivity.
Defined.

(** *** What a client without an auth type never changes *)

Lemma grows_cons {A} (x : A) (l t : list A) :
  (∃ evs, l = evs ++ t) → ∃ evs, x :: l = evs ++ t.
Proof. intros [evs ->]. exists (x :: evs). reflexivity. Qed.

Lemma keeps_then (s s1 s2 : State) :
  self s1 = self s ∧ (∃ evs, trace s1 = evs ++ trace s) →
  self s2 = self s1 ∧ (∃ evs, trace s2 = evs ++ trace s1) →
  self s2 = self s ∧ (∃ evs, trace s2 = evs ++ trace s).
Proof.
  intros [H1 [evs1 E1]] [H2 [evs2 E2]]. split; [congruence|].
  exists (evs2 ++ evs1). rewrite E2, E1. apply app_assoc.
Qed.

Lemma keeps_bind {A B} (m : M A) (f : A → M B) :
  keeps_self m → (∀ a, keeps_self (f a)) → keeps_self (m ≫= f).
Proof.
  intros Hm Hf s Hs. specialize (Hm s Hs). unfold mbind, M_bind.
  destruct (m s) as [a s1|e s1|s1]; cbn [final] in *; [|exact Hm..].
  apply (keeps_then s s1); [exact Hm|].
  apply Hf. destruct Hm as [-> _]. exact Hs.
Qed.

Lemma keeps_try {A} (c : M A) (cls : exn → bool) (h : exn → M A) :
  keeps_self c → (∀ e, keeps_self (h e)) → keeps_self (try_except c cls h).
Proof.
  intros Hc Hh s Hs. specialize (Hc s Hs). unfold try_except.
  destruct (c s) as [a s1|e s1|s1]; cbn [final] in *; [exact Hc| |exact Hc].
  destruct (cls e); [|exact Hc].
  apply (keeps_then s s1); [exact Hc|].
  apply Hh. destruct Hc as [-> _]. exact Hs.
Qed.

(** a step whose end state is at hand *)
Ltac kept :=
  split; [reflexivity|];
  cbn; repeat first [ (exists []; reflexivity) | apply grows_cons ].

Lemma keeps_ret {A} (a : A) : keeps_self (mret a).
Proof. intros s _. kept. Qed.

Lemma keeps_raise {A} (e : exn) : keeps_self (raise e : M A).
Proof. intros s _. kept. Qed.

Lemma keeps_out_of_steps {A} : keeps_self (out_of_steps : M A).
Proof. intros s _. kept. Qed.

Lemma keeps_get_state : keeps_self get_state.
Proof. intros s _. kept. Qed.

Lemma keeps_emit (e : event) : keeps_self (emit e).
Proof. intros s _. kept. Qed.

Lemma keeps_debug (msg : string) : keeps_self (debug msg).
Proof. intros s _. kept. Qed.

Lemma keeps_print (msg : string) : keeps_self (print msg).
Proof. intros s _. kept. Qed.

Lemma keeps_sleep (ms : Z) : keeps_self (sleep ms).
Proof. intros s _. kept. Qed.

Lemma keeps_observe : keeps_self observe.
Proof. intros s _. kept. Qed.

Lemma keeps_driver_current_window_handle : keeps_self driver_current_window_handle.
Proof. intros s _. kept. Qed.

Lemma keeps_switch_to_new_window_tab : keeps_self switch_to_new_window_tab.
Proof. intros s _. kept. Qed.

Lemma keeps_driver_close : keeps_self driver_close.
Proof. intros s _. kept. Qed.

Lemma keeps_switch_to_window (h : nat) : keeps_self (switch_to_window h).
Proof. intros s _. kept. Qed.

Lemma keeps_driver_get (url : string) : keeps_self (driver_get url).
Proof. intros s _. kept. Qed.

Lemma keeps_save_screenshot (file : string) : keeps_self (save_screenshot file).
Proof. intros s _. kept. Qed.

Lemma keeps_click (e : WebElement) : keeps_self (click e).
Proof. intros s _. kept. Qed.

Lemma keeps_send_keys (e : WebElement) (k : key) : keeps_self (send_keys e k).
Proof. intros s _. kept. Qed.

Lemma keeps_find_elements (loc : locator) : keeps_self (find_elements loc).
Proof. intros s _. kept. Qed.

Lemma keeps_find_element (loc : locator) : keeps_self (find_element loc).
Proof.
  intros s _. unfold find_element. run. destruct (elements _ _); kept.
Qed.

Lemma keeps_execute_script (script : string) (args : list script_arg) :
  keeps_self (execute_script script args).
Proof.
  intros s _. unfold execute_script. run. destruct (script_error _); kept.
Qed.

Lemma keeps_driver_page_source : keeps_self driver_page_source.
Proof. intros s _. kept. Qed.

Lemma keeps_driver_current_url : keeps_self driver_current_url.
Proof. intros s _. kept. Qed.

Lemma keeps_get_log_performance : keeps_self get_log_performance.
Proof. intros s _. kept. Qed.

Lemma keeps_wait_until_present (t : Z) (loc : locator) :
  keeps_self (wait_until_present t loc).
Proof.
  intros s _. unfold wait_until_present. run. destruct (elements _ _); kept.
Qed.

Lemma keeps_wait_until_absent (t : Z) (loc : locator) :
  keeps_self (wait_until_absent t loc).
Proof.
  intros s _. unfold wait_until_absent. run. destruct (elements _ _); kept.
Qed.

Lemma keeps_wait_until_clickable (t : Z) (loc : locator) :
  keeps_self (wait_until_clickable t loc).
Proof.
  intros s _. unfold wait_until_clickable. run.
  destruct (elements _ _) as [|e es]; [kept|].
  destruct (we_clickable e); kept.
Qed.

Lemma keeps_last_item {A} (xs : list A) : keeps_self (last_item xs).
Proof. intros s _. unfold last_item. destruct (last xs); kept. Qed.

Lemma keeps_first_char (str : string) : keeps_self (first_char str).
Proof. intros s _. destruct str; kept. Qed.

Lemma keeps_raise_if_error (responses : list WebElement) :
  keeps_self (raise_if_error responses).
Proof.
  intros s _. unfold raise_if_error. destruct (last responses) as [r|]; [|kept].
  destruct (Py.contains _ _); kept.
Qed.

Create HintDb keeps.
#[local] Hint Resolve keeps_ret keeps_raise keeps_out_of_steps keeps_get_state
  keeps_emit keeps_debug keeps_print keeps_sleep keeps_observe
  keeps_driver_current_window_handle keeps_switch_to_new_window_tab
  keeps_driver_close keeps_switch_to_window keeps_driver_get
  keeps_save_screenshot keeps_click keeps_send_keys keeps_find_elements
  keeps_find_element keeps_execute_script keeps_driver_page_source
  keeps_driver_current_url keeps_get_log_performance keeps_wait_until_present
  keeps_wait_until_absent keeps_wait_until_clickable keeps_last_item
  keeps_first_char keeps_raise_if_error : keeps.

(** through the code, one call at a time *)
Ltac keeps :=
  repeat first
    [ solve [auto with keeps]
    | apply keeps_bind; [|intros ?]
    | apply keeps_try; [|intros ?]
    | match goal with
      | |- keeps_self (if ?b then _ else _) => destruct b
      | |- keeps_self (match ?x with _ => _ end) => destruct x
      end ].

Lemma keeps_check_capacity (fuel : nat) (url : string) :
  keeps_self (check_capacity fuel url).
Proof.
  induction fuel as [|fuel IH]; cbn [check_capacity]; keeps.
Qed.

Lemma keeps_check_blocking_elements : keeps_self check_blocking_elements.
Proof. unfold check_blocking_elements. keeps. Qed.

Lemma keeps_stream_message (fuel : nat) (body : string → M unit) :
  (∀ fragment, keeps_self (body fragment)) →
  ∀ prev, keeps_self (stream_message fuel prev body).
Proof.
  intros Hbody. induction fuel as [|fuel IH]; intros prev; cbn [stream_message];
    keeps.
Qed.

Section Frames.

Variable markdownify : string → string.
Variable json_loads : string → option (gmap string string).
Variable Auth0_login : M unit.

Lemma keeps_read_response : keeps_self (read_response markdownify).
Proof.
  unfold read_response. keeps.
Qed.

(** without an auth type the login is not reached *)
Lemma keeps_login_guard (fuel : nat) :
  keeps_self (s ← get_state;
              if negb (Py.truthy (auth_type (self s)))
              then raise (ValueError "Invalid session token")
              else login Auth0_login fuel).
Proof. intros s Hs. run. rewrite Hs. kept. Qed.

Lemma keeps_validate_authorization (fuel w : nat) :
  keeps_self (validate_authorization json_loads Auth0_login fuel w).
Proof.
  pose proof (keeps_login_guard fuel) as Hguard.
  unfold validate_authorization. keeps.
Qed.

Lemma keeps_ensure_cf (fuel : nat) :
  ∀ retry, keeps_self (ensure_cf json_loads Auth0_login fuel retry).
Proof.
  pose proof keeps_validate_authorization as Hvalidate.
  induction fuel as [|fuel IH]; intros retry; cbn [ensure_cf]; keeps.
Qed.

Lemma keeps_submit_message (fuel : nat) (message : string) :
  keeps_self (submit_message json_loads Auth0_login fuel message).
Proof.
  pose proof keeps_ensure_cf as Hgate. unfold submit_message. keeps.
Qed.

(** X20. For a client without an auth type, [send_message] changes none of
    the object's attributes, however it ends and whether it streams or not:
    a conversation id recovered from the performance log is returned, not
    stored. *)
Theorem send_message_keeps_attributes (fuel : nat) (message : string)
    (stream : bool) (s : State) :
  Py.truthy (auth_type (self s)) = false →
  self (final (send_message markdownify json_loads Auth0_login fuel message stream s))
  = self s.
Proof.
  intros Hs.
  cut (keeps_self (send_message markdownify json_loads Auth0_login
                     fuel message stream)); [intros H; apply H, Hs|].
  unfold send_message. apply keeps_bind; [apply keeps_submit_message|intros _].
  destruct stream; [|apply keeps_read_response].
  apply keeps_bind; [|intros _; apply keeps_ret].
  apply keeps_stream_message. intros fragment. keeps.
Qed.

(** *** Start of the browser *)

(** X21. When Chrome cannot be found, [__init_browser] raises [ValueError]
    "Chrome installation not found" with no driver stored, having started
    the virtual display if the host needs one; [__del__] after that stops
    that display and quits no browser. *)
Theorem init_browser_chrome_missing (fuel : nat) (s : State) :
  has_driver (self s) = false → has_display (self s) = false →
  (needs_virtual_display (host s) = true → display_error (host s) = None) →
  chrome_error (host s) = Some chrome_not_found →
  ∃ s' s'',
    init_browser json_loads Auth0_login fuel s =
    Exc (ValueError "Chrome installation not found") s'
    ∧ has_driver (self s') = false
    ∧ has_display (self s') = needs_virtual_display (host s)
    ∧ del s' = Ret () s''
    ∧ trace s'' =
      stamp (clock s) (chrome_missing_log (needs_virtual_display (host s)))
      ++ trace s.
Proof.
  intros Hdriver Hdisplay Hok Hchrome. unfold init_browser, del. run.
  rewrite Hchrome.
  destruct (needs_virtual_display (host s)) eqn:Hneeds.
  - rewrite (Hok eq_refl). run. cbn.
    eexists _, _. split; [reflexivity|]. cbn. rewrite Hdriver.
    repeat split.
  - run. cbn.
    eexists _, _. split; [reflexivity|]. cbn. rewrite Hdriver, Hdisplay.
    repeat split.
Qed.

(** X22. A cookie file wins over the constructor's argument: when the file
    at the cookie path holds session-token cookies, the token of the last
    of them is the one stored and the one set in the browser, whatever
    session token the client was built with and however the start goes on
    from there. *)
Theorem init_browser_restores_cookie (fuel : nat) (s : State)
    (cs : list (string * string)) (c : string * string) :
  (needs_virtual_display (host s) = true → display_error (host s) = None) →
  chrome_error (host s) = None →
  Py.truthy (auth_type (self s)) = false →
  login_cookies_path (self s) ≠ EmptyString →
  cookie_file (host s) = Some (Some cs) →
  last (session_cookies cs) = Some c → c.2 ≠ EmptyString →
  let r := final (init_browser json_loads Auth0_login fuel s) in
  session_token (self r) = Some c.2
  ∧ (clock s, Cdp "Network.setCookie" c.2) ∈ trace r.
Proof.
  intros Hok Hchrome Hauth Hpath Hfile Hlast Htok. cbv zeta.
  unfold session_cookies in Hlast. unfold init_browser.
  assert (Py.truthy_str (login_cookies_path (self s)) = true) as Hp
    by (destruct (login_cookies_path (self s)); [contradiction|reflexivity]).
  assert (Py.truthy_str c.2 = true) as Htruthy
    by (destruct c.2; [contradiction|reflexivity]).
  assert (∀ s3 s' : State,
            session_token (self s3) = Some c.2 →
            (clock s, Cdp "Network.setCookie" c.2) ∈ trace s3 →
            self s' = self s3 ∧ (∃ evs, trace s' = evs ++ trace s3) →
            session_token (self s') = Some c.2
            ∧ (clock s, Cdp "Network.setCookie" c.2) ∈ trace s') as Hkept.
  { intros s3 s' H1 H2 [-> [evs ->]]. split; [exact H1|].
    apply elem_of_app. right. exact H2. }
  destruct (needs_virtual_display (host s)) eqn:Hneeds;
    [specialize (Hok eq_refl)|clear Hok]; run; rewrite Hneeds;
    [rewrite Hok; run|]; rewrite Hchrome, Hfile, Hp, Hlast; run;
    cbn [session_token set_session_token set_has_driver set_has_display
         moderation];
    rewrite Htruthy; destruct (negb (moderation (self s))); run.
  (* the session check *)
  all: match goal with
       | |- context [ensure_cf _ _ _ _ ?s0] =>
           pose proof (keeps_ensure_cf fuel 3 s0 Hauth) as H;
           pose proof (Hkept s0) as Hgate;
           destruct (ensure_cf json_loads Auth0_login fuel 3 s0) as [[] s4|e s4|s4]
       end; cbn [final] in H |- *;
       specialize (Hgate s4 eq_refl);
       (lapply Hgate;
        [clear Hgate; intros Hgate; specialize (Hgate H)
        |cbn [trace];
         repeat first [apply list_elem_of_here|apply list_elem_of_further]]);
       try exact Hgate.
  (* the chat page *)
  all: match goal with
       | |- context [check_blocking_elements ?s5] =>
           assert (Py.truthy (auth_type (self s5)) = false) as Hauth5
             by (cbn [self]; destruct H as [-> _]; exact Hauth);
           pose proof (keeps_check_blocking_elements s5 Hauth5) as H2;
           pose proof (Hkept s5) as Hpage;
           destruct (check_blocking_elements s5) as [[] s6|e s6|s6]
       end; cbn [final] in H2 |- *;
       destruct Hgate as [Htoken Hset];
       specialize (Hpage s6 Htoken);
       (lapply Hpage;
        [clear Hpage; intros Hpage; specialize (Hpage H2)
        |cbn [trace]; do 2 apply list_elem_of_further; exact Hset]);
       try exact Hpage.
  all: destruct Hpage as [Htoken6 Hset6]; split;
       [exact Htoken6|apply list_elem_of_further; exact Hset6].
Qed.

End Frames.

(** *** The theorems above, at sample inputs *)

Lemma send_message_keeps_attributes_witness :
  self (final (send_message Sample.markdownify Sample.json_loads
                 Sample.Auth0_login 5 "hello" false Sample.answered))
  = self Sample.answered.
Proof.
  apply (send_message_keeps_attributes Sample.markdownify Sample.json_loads
           Sample.Auth0_login 5 "hello" false Sample.answered).
  reflexivity.
Defined.

Lemma init_browser_chrome_missing_witness :
  ∃ s' s'',
    init_browser Sample.json_loads Sample.Auth0_login 5
      (Scene.fresh Sample.with_token Scene.no_chrome (λ _, Sample.blank)) =
    Exc (ValueError "Chrome installation not found") s'
    ∧ has_driver (self s') = false
    ∧ has_display (self s') = true
    ∧ del s' = Ret () s''
    ∧ trace s'' = stamp 0 (chrome_missing_log true).
Proof.
  apply (init_browser_chrome_missing Sample.json_loads Sample.Auth0_login 5
           (Scene.fresh Sample.with_token Scene.no_chrome (λ _, Sample.blank)));
    reflexivity.
Defined.

Lemma init_browser_restores_cookie_witness :
  let r := final (init_browser Sample.json_loads Sample.Auth0_login 5
                    (Scene.fresh Scene.with_token_and_path Scene.with_cookie_file
                       (λ _, Sample.blank))) in
  session_token (self r) = Some "new-token"
  ∧ (0, Cdp "Network.setCookie" "new-token") ∈ trace r.
Proof.
  apply (init_browser_restores_cookie Sample.json_loads Sample.Auth0_login 5
           (Scene.fresh Scene.with_token_and_path Scene.with_cookie_file
              (λ _, Sample.blank))
           [(session_cookie, "old-token"); ("_puid", "y");
            (session_cookie, "new-token")]
           (session_cookie, "new-token")).
  - intros H. vm_compute in H. discriminate.
  - reflexivity.
  - reflexivity.
  - vm_compute. discriminate.
  - reflexivity.
  - vm_compute. reflexivity.
  - vm_compute. discriminate.
Defined.
